(** * The authorization middleware of the user service (src/index.ts)

    The three Express guards [authenticate], [userIsAdmin] and
    [userIsSelfOrAdmin] and the promise wrapper [query] are embedded as
    computations of a small monad [Async]: state (the MySQL side),
    exceptions ([throw] and rejected promises), a third completion for
    an [await] on a promise that never settles, and a log of what a run
    does to the outside world.

    - A request is the two credential headers, the user-role header and
      the id of the path; the response object is seen through the
      statuses sent to it.
    - The database is the [users] table together with what the
      persistence layer does to the coming calls of [query]: serve them,
      serve them after a write of another request, refuse a connection,
      or fail the statement.
    - [jwt.verify] belongs to the jsonwebtoken package and is a
      parameter (class [Jwt]): for each token, the payload it returns
      or the error it throws. It is taken at one instant, so that a
      token does not expire between two calls.
    - The statements are given the meaning MySQL gives them on one
      table: selections, deletions and updates with scalar
      placeholders. The two statements of the route bodies that take
      an object for their placeholder are not among them.
    - An async function called without [await] runs to its end before
      its caller goes on; neither [authenticate] nor the guards do
      anything after such a call. *)

From Stdlib Require Import String List Bool Arith Lia QArith Qcanon DecimalString.
From ExtLib Require Import Structures.Monad Structures.MonadExc.
Import ListNotations.
Import MonadNotation.
Local Open Scope nat_scope.
Local Open Scope string_scope.
Local Open Scope list_scope.
Local Open Scope monad_scope.

(** ** Data *)

(** What a [throw] or a rejected promise carries. [Error msg] is
    [new Error(msg)]; the others are raised by the runtime and by the
    libraries: reading a property of [undefined], a failed [jwt.verify],
    an error handed to a mysql2 callback. *)
Inductive Exn : Type :=
| Error (msg : string)
| TypeError
| JsonWebTokenError
| QueryError.

(** A JavaScript number as [JSON.parse] gives it, by its value: the two
    zeros are one value for [===], a literal beyond the range of a
    double is an infinity, and there is no NaN in JSON. *)
Inductive Number : Type :=
| Finite (x : Qc)
| Infinite (negative : bool).

Definition number_eqb (a b : Number) : bool :=
  match a, b with
  | Finite x, Finite y => Qeq_bool x y
  | Infinite s, Infinite t => Bool.eqb s t
  | _, _ => false
  end.

(** The value [jwt.verify] returns. A payload that is not JSON, or that
    the header does not declare as JSON, comes back as a string; a JSON
    payload comes back parsed: a string, a number, a boolean, or an
    object (an array is one). *)
Inductive Payload : Type :=
| PString (s : string)
| PNumber (n : Number)
| PBoolean (b : bool)
| PObject (claims : list (string * string)).

(** [a === b] on two values obtained from two separate [jwt.verify]
    calls: strings, numbers and booleans compare by value, values of
    different types differ, objects compare by identity and every call
    builds a new object. *)
Definition strict_eq (a b : Payload) : bool :=
  match a, b with
  | PString s, PString t => String.eqb s t
  | PNumber m, PNumber n => number_eqb m n
  | PBoolean x, PBoolean y => Bool.eqb x y
  | _, _ => false
  end.

(** What a call of [jwt.verify] comes to: the payload, or the error it
    throws ([JsonWebTokenError] and its subclasses for a token that is
    malformed, wrongly signed or expired, a [TypeError] for a JSON
    payload that is [null]). *)
Inductive Verified : Type :=
| Decoded (p : Payload)
| Throws (e : Exn).

(** [jwt.verify(token, secret)] of the jsonwebtoken package, at one
    instant. *)
Class Jwt : Type := { jwt_verify : string -> string -> Verified }.

(** A row of the [users] table as the guards read it. *)
Record RowDataPacket : Type := {
  row_id : nat;                      (* id *)
  row_email : string;                (* email *)
  row_role : string;                 (* role *)
  row_accessToken : option string    (* accessToken; None is NULL *)
}.

Definition Table : Type := list RowDataPacket.

(** The part of the request the guards read; [None] is [undefined]. *)
Record Request : Type := {
  headers_access_token : option string;  (* req.headers["access-token"] *)
  headers_email : option string;         (* req.headers.email *)
  headers_user_role : option string;     (* req.headers["user-role"] *)
  params_id : option string              (* req.params.id *)
}.

(** JavaScript truthiness of a header: [undefined] and [""] are falsy. *)
Definition truthy (h : option string) : bool :=
  match h with
  | None => false
  | Some s => negb (String.eqb s "")
  end.

(** [a === b] for values that are a string or [undefined]. *)
Definition strict_eq_str (a b : option string) : bool :=
  match a, b with
  | None, None => true
  | Some s, Some t => String.eqb s t
  | _, _ => false
  end.

(** ** The persistence side *)

(** What happens to one call of [query]: the statement is served on the
    table as it stands, or after other requests have written to it, or
    the pool hands no connection, or the statement fails. *)
Inductive Fate : Type :=
| Served
| ServedAfter (t' : Table)
| ConnectionError
| StatementError.

(** The table and what awaits the coming calls of [query] (a call
    beyond the end of the list is [Served]). *)
Record Database : Type := {
  users : Table;
  upcoming : list Fate
}.

Definition select_by_email : string := "SELECT * FROM users WHERE email = ?".

(** The columns of [users] a row carries here. *)
Inductive Column : Type := Cid | Cemail | Crole | CaccessToken.

Definition column_name (c : Column) : string :=
  match c with
  | Cid => "id"
  | Cemail => "email"
  | Crole => "role"
  | CaccessToken => "accessToken"
  end.

Definition columns : list Column := [Cid; Cemail; Crole; CaccessToken].

(** The statements with scalar placeholders. Those of index.ts are
    among them: the selection by email of the guards (87, 116), the
    selection by id (178, 200, 230, 257, 285), the selection of all rows
    (304), the update of a role (281) and the deletion by id (325). *)
Inductive Statement : Type :=
| SelectAll
| SelectWhere (c : Column)
| DeleteWhere (c : Column)
| UpdateWhere (target c : Column).

Definition statement_text (st : Statement) : string :=
  match st with
  | SelectAll => "SELECT * FROM users"
  | SelectWhere c => "SELECT * FROM users WHERE " ++ column_name c ++ " = ?"
  | DeleteWhere c => "DELETE FROM users WHERE " ++ column_name c ++ " = ?"
  | UpdateWhere a c =>
      "UPDATE users SET " ++ column_name a ++ " = ? WHERE "
      ++ column_name c ++ " = ?"
  end.

Definition statements : list Statement :=
  SelectAll
  :: map SelectWhere columns
  ++ map DeleteWhere columns
  ++ flat_map (fun a => map (UpdateWhere a) columns) columns.

Definition parse (sql : string) : option Statement :=
  find (fun st => String.eqb (statement_text st) sql) statements.

(** [column = ?] on a row; an id is compared through its decimal
    numeral, and NULL equals nothing. *)
Definition matches (c : Column) (v : string) (r : RowDataPacket) : bool :=
  match c with
  | Cid => String.eqb (NilEmpty.string_of_uint (Nat.to_uint (row_id r))) v
  | Cemail => String.eqb (row_email r) v
  | Crole => String.eqb (row_role r) v
  | CaccessToken =>
      match row_accessToken r with
      | Some t => String.eqb t v
      | None => false
      end
  end.

(** [SET column = ?] on a row; ids are not reassigned. *)
Definition assign (c : Column) (v : string) (r : RowDataPacket)
  : option RowDataPacket :=
  match c with
  | Cid => None
  | Cemail =>
      Some {| row_id := row_id r; row_email := v; row_role := row_role r;
              row_accessToken := row_accessToken r |}
  | Crole =>
      Some {| row_id := row_id r; row_email := row_email r; row_role := v;
              row_accessToken := row_accessToken r |}
  | CaccessToken =>
      Some {| row_id := row_id r; row_email := row_email r;
              row_role := row_role r; row_accessToken := Some v |}
  end.

(** What a statement does to the table and what it resolves with: the
    rows for a selection, in the order of the table; for a deletion or
    an update a header, which has no rows. [None] is an error of the
    server: a text outside the fragment, or a placeholder without its
    value. *)
Definition execute (sql : string) (values : list string) (t : Table)
  : option (Table * list RowDataPacket) :=
  match parse sql, values with
  | Some SelectAll, _ => Some (t, t)
  | Some (SelectWhere c), v :: _ => Some (t, filter (matches c v) t)
  | Some (DeleteWhere c), v :: _ =>
      Some (filter (fun r => negb (matches c v r)) t, [])
  | Some (UpdateWhere a c), v :: w :: _ =>
      match a with
      | Cid => None
      | _ =>
          Some (map (fun r => if matches c w r
                              then match assign a v r with
                                   | Some r' => r'
                                   | None => r
                                   end
                              else r) t, [])
      end
  | _, _ => None
  end.

(** ** Effects *)

Inductive Event : Type :=
| Lookup (sql : string) (values : list string)  (* query(sql, values) called *)
| ConsoleError (e : Exn)                         (* console.error(e) *)
| SendStatus (code : nat)                        (* res.sendStatus(code) *)
| NextStage                                      (* the route's handler runs *)
| UnhandledRejection (e : Exn).                  (* a rejected promise nobody awaits *)

Inductive Completion (A : Type) : Type :=
| Normal (a : A)
| Thrown (e : Exn)
| Pending.
Arguments Normal {A} a.
Arguments Thrown {A} e.
Arguments Pending {A}.

Definition Async (A : Type) : Type :=
  Database -> Completion A * Database * list Event.

Definition async_ret {A} (a : A) : Async A := fun db => (Normal a, db, []).

Definition async_bind {A B} (c : Async A) (k : A -> Async B) : Async B :=
  fun db =>
    match c db with
    | (Normal a, db1, ev1) =>
        let '(r, db2, ev2) := k a db1 in (r, db2, ev1 ++ ev2)
    | (Thrown e, db1, ev1) => (Thrown e, db1, ev1)
    | (Pending, db1, ev1) => (Pending, db1, ev1)
    end.

Definition async_raise {A} (e : Exn) : Async A := fun db => (Thrown e, db, []).

Definition async_catch {A} (c : Async A) (h : Exn -> Async A) : Async A :=
  fun db =>
    match c db with
    | (Thrown e, db1, ev1) =>
        let '(r, db2, ev2) := h e db1 in (r, db2, ev1 ++ ev2)
    | other => other
    end.

#[global] Instance Monad_Async : Monad Async :=
  { ret := @async_ret; bind := @async_bind }.

#[global] Instance Exc_Async : MonadExc Exn Async :=
  { raise := @async_raise; catch := @async_catch }.

Definition emit (e : Event) : Async unit := fun db => (Normal tt, db, [e]).

(** A promise that is never resolved nor rejected. *)
Definition never {A} : Async A := fun db => (Pending, db, []).

(** Calling an async function without awaiting the promise it returns:
    the caller goes on whatever becomes of the callee; a rejection has
    no handler. The callers in this file do nothing after such a call,
    so running the callee to its end first does not reorder effects. *)
Definition call_unawaited (f : Async unit) : Async unit :=
  fun db =>
    match f db with
    | (Normal _, db1, ev1) => (Normal tt, db1, ev1)
    | (Thrown e, db1, ev1) => (Normal tt, db1, ev1 ++ [UnhandledRejection e])
    | (Pending, db1, ev1) => (Normal tt, db1, ev1)
    end.

Definition console_error (e : Exn) : Async unit := emit (ConsoleError e).
Definition sendStatus (code : nat) : Async unit := emit (SendStatus code).

(** The fate of the call being made. *)
Definition next_fate : Async Fate :=
  fun db =>
    match upcoming db with
    | [] => (Normal Served, db, [])
    | f :: fs => (Normal f, {| users := users db; upcoming := fs |}, [])
    end.

Definition read_users : Async Table := fun db => (Normal (users db), db, []).

Definition write_users (t : Table) : Async unit :=
  fun db => (Normal tt, {| users := t; upcoming := upcoming db |}, []).

(** [result[0]]: reading a property of it throws when there is no row. *)
Definition first_row (result : list RowDataPacket) : Async RowDataPacket :=
  match result with
  | r :: _ => ret r
  | [] => raise TypeError
  end.

(** ** The code *)

(** [query] (index.ts 49-68). When [pool.getConnection] fails the error
    is logged and the executor returns: the promise stays pending. When
    the statement fails the promise is rejected, otherwise it is
    resolved with the rows. Releasing the connection has no effect the
    guards can see and is left out. *)
Definition query (sql : string) (values : list string)
  : Async (list RowDataPacket) :=
  emit (Lookup sql values) ;;
  fate <- next_fate ;;
  match fate with
  | ConnectionError => console_error QueryError ;; never
  | StatementError => raise QueryError
  | Served =>
      t <- read_users ;;
      match execute sql values t with
      | Some (written, results) => write_users written ;; ret results
      | None => raise QueryError
      end
  | ServedAfter t' =>
      write_users t' ;;
      match execute sql values t' with
      | Some (written, results) => write_users written ;; ret results
      | None => raise QueryError
      end
  end.

Section Guards.

Context {J : Jwt}.

(** [jwt.verify(x, secret)] where [x] may be [undefined] or [null]. *)
Definition verify (token : option string) (secret : string) : Async Payload :=
  match token with
  | None => raise JsonWebTokenError
  | Some t =>
      match jwt_verify t secret with
      | Decoded p => ret p
      | Throws e => raise e
      end
  end.

Definition values_of (h : option string) : list string :=
  match h with
  | Some s => [s]
  | None => []
  end.

(** [authenticate] (index.ts 77-101). *)
Definition authenticate (req : Request) (next : Async unit) : Async unit :=
  let accessToken := headers_access_token req in
  if negb (truthy accessToken) || negb (truthy (headers_email req)) then
    raise (Error "Unauthorized")
  else
    catch
      (requestToken <- verify accessToken "oranges" ;;
       result <- query select_by_email (values_of (headers_email req)) ;;
       r0 <- first_row result ;;
       userToken <- verify (row_accessToken r0) "oranges" ;;
       if strict_eq requestToken userToken then call_unawaited next
       else raise (Error "Forbidden"))
      (fun err =>
         console_error err ;;
         raise (Error "Internal Server Error")).

(** [userIsAdmin] (index.ts 110-130). *)
Definition userIsAdmin (req : Request) (next : Async unit) : Async unit :=
  catch
    (authenticate req
       (let email := headers_email req in
        result <- query select_by_email (values_of email) ;;
        isAdmin <- (if Nat.ltb 0 (List.length result) then
                      r0 <- first_row result ;;
                      ret (String.eqb (row_role r0) "ADMIN")
                    else ret false) ;;
        if isAdmin then next else sendStatus 403))
    (fun err =>
       console_error err ;;
       sendStatus 500).

(** [userIsSelfOrAdmin] (index.ts 139-157). *)
Definition userIsSelfOrAdmin (req : Request) (next : Async unit) : Async unit :=
  catch
    (authenticate req
       (let userId := params_id req in
        let userRole := headers_user_role req in
        if strict_eq_str userId (params_id req)
           || strict_eq_str userRole (Some "ADMIN")
        then next else sendStatus 403))
    (fun err =>
       console_error err ;;
       sendStatus 500).

(** The shape of every route (index.ts 162-333): the guard runs inside
    [try], any rejection is logged and answered with 500. *)
Definition route (guard : Request -> Async unit -> Async unit)
           (req : Request) (handler : Async unit) : Async unit :=
  catch
    (guard req handler)
    (fun err =>
       console_error err ;;
       sendStatus 500).

End Guards.

(** ** Observing a run *)

Definition completion {A} (r : Completion A * Database * list Event)
  : Completion A := fst (fst r).
Definition database {A} (r : Completion A * Database * list Event)
  : Database := snd (fst r).
Definition events {A} (r : Completion A * Database * list Event)
  : list Event := snd r.

(** The next stage as the claims see it: it runs, and that is recorded. *)
Definition next_stage : Async unit := emit NextStage.

Definition is_next (e : Event) : bool :=
  match e with NextStage => true | _ => false end.
Definition is_lookup (e : Event) : bool :=
  match e with Lookup _ _ => true | _ => false end.
Definition is_unhandled (e : Event) : bool :=
  match e with UnhandledRejection _ => true | _ => false end.
Definition is_boundary (e : Event) : bool :=
  match e with NextStage | SendStatus _ => true | _ => false end.

Definition invoked (evs : list Event) : bool := existsb is_next evs.
Definition lookups (evs : list Event) : nat := List.length (filter is_lookup evs).
Definition unhandled (evs : list Event) : bool := existsb is_unhandled evs.

(** What crosses the boundary towards the caller of the service: the
    handler being run and the statuses sent, in order. *)
Definition boundary (evs : list Event) : list Event := filter is_boundary evs.

Definition ALLOW : list Event := [NextStage].
Definition Forbidden : list Event := [SendStatus 403].
Definition InternalFailure : list Event := [SendStatus 500].

(** ** Reading a run of the guards *)

(** Why an evaluation of [authenticate] does not reach the next stage.
    The first four are the taxonomy of the error-handling design; the
    last two are the two ways [query] can fail. *)
Inductive Failure : Type :=
| MissingCredentials
| InvalidToken
| UnknownPrincipal
| TokenMismatch
| PersistenceFault
| PersistenceStall.

Section Reading.

Context {J : Jwt}.

(** The lookup [authenticate] makes for a request. *)
Definition account_lookup (req : Request) : Async (list RowDataPacket) :=
  query select_by_email (values_of (headers_email req)).

(** A request passes token authentication when [authenticate] reaches
    its call of the next stage. *)
Definition passes_authentication (req : Request) (db : Database) : bool :=
  invoked (events (authenticate req next_stage db)).

Definition decode (token : option string) : option Payload :=
  match token with
  | Some t =>
      match jwt_verify t "oranges" with
      | Decoded p => Some p
      | Throws _ => None
      end
  | None => None
  end.

(** The branch of [authenticate] a request takes on a database, read
    off the order of its checks; [None] when every check succeeds. *)
Definition diagnose (req : Request) (db : Database) : option Failure :=
  if negb (truthy (headers_access_token req))
     || negb (truthy (headers_email req))
  then Some MissingCredentials
  else
    match decode (headers_access_token req) with
    | None => Some InvalidToken
    | Some p =>
        match completion (account_lookup req db) with
        | Pending => Some PersistenceStall
        | Thrown _ => Some PersistenceFault
        | Normal [] => Some UnknownPrincipal
        | Normal (r :: _) =>
            match decode (row_accessToken r) with
            | None => Some InvalidToken
            | Some q => if strict_eq p q then None else Some TokenMismatch
            end
        end
    end.

(** The three places [authenticate] is awaited from have one shape. *)
Definition answered (body : Async unit) : Async unit :=
  catch body (fun err => console_error err ;; sendStatus 500).

(** The function [userIsAdmin] hands to [authenticate] (index.ts 112-125). *)
Definition role_check (req : Request) (next : Async unit) : Async unit :=
  let email := headers_email req in
  result <- query select_by_email (values_of email) ;;
  isAdmin <- (if Nat.ltb 0 (List.length result) then
                r0 <- first_row result ;;
                ret (String.eqb (row_role r0) "ADMIN")
              else ret false) ;;
  if isAdmin then next else sendStatus 403.

(** The lookup the callback of [userIsAdmin] makes: the same statement,
    on the database as the authenticator's lookup left it. *)
Definition role_lookup (req : Request) (db : Database)
  : Completion (list RowDataPacket) * Database * list Event :=
  account_lookup req (database (account_lookup req db)).

(** [result.length > 0 && result[0].role === "ADMIN"]. *)
Definition is_admin (result : list RowDataPacket) : bool :=
  match result with
  | r :: _ => String.eqb (row_role r) "ADMIN"
  | [] => false
  end.

(** Whether the record the role check reads says ADMIN. *)
Definition admin_on_file (req : Request) (db : Database) : bool :=
  match completion (role_lookup req db) with
  | Normal result => is_admin result
  | _ => false
  end.

(** No call of [query] still to come is disturbed: no failure and no
    write by another request. *)
Definition undisturbed (db : Database) : Prop := upcoming db = [].

(** The four reasons of the error taxonomy. *)
Definition authentication_failure (f : Failure) : bool :=
  match f with
  | MissingCredentials | InvalidToken | UnknownPrincipal | TokenMismatch => true
  | PersistenceFault | PersistenceStall => false
  end.

(** What "answers 500" means for a handler. *)
Definition answers_500 (r : Completion unit * Database * list Event) : Prop :=
  completion r = Normal tt /\ boundary (events r) = InternalFailure /\
  unhandled (events r) = false.

(** Whether [authenticate] gets as far as its lookup. *)
Definition reaches_lookup (req : Request) : bool :=
  negb (negb (truthy (headers_access_token req))
        || negb (truthy (headers_email req)))
  && match decode (headers_access_token req) with
     | Some _ => true
     | None => false
     end.


(** The same caller and credentials, another target id and role header. *)
Definition with_target (req : Request) (target userRole : option string)
  : Request :=
  {| headers_access_token := headers_access_token req;
     headers_email := headers_email req;
     headers_user_role := userRole;
     params_id := target |}.

(** The collapse the design allows for [userIsAdmin]: one lookup, whose
    result serves the token check and is handed on to the role check. *)
Definition authenticate_sharing (req : Request)
           (next : list RowDataPacket -> Async unit) : Async unit :=
  let accessToken := headers_access_token req in
  if negb (truthy accessToken) || negb (truthy (headers_email req)) then
    raise (Error "Unauthorized")
  else
    catch
      (requestToken <- verify accessToken "oranges" ;;
       result <- query select_by_email (values_of (headers_email req)) ;;
       r0 <- first_row result ;;
       userToken <- verify (row_accessToken r0) "oranges" ;;
       if strict_eq requestToken userToken then call_unawaited (next result)
       else raise (Error "Forbidden"))
      (fun err =>
         console_error err ;;
         raise (Error "Internal Server Error")).

Definition userIsAdmin_single_lookup (req : Request) (next : Async unit)
  : Async unit :=
  catch
    (authenticate_sharing req
       (fun result =>
          isAdmin <- (if Nat.ltb 0 (List.length result) then
                        r0 <- first_row result ;;
                        ret (String.eqb (row_role r0) "ADMIN")
                      else ret false) ;;
          if isAdmin then next else sendStatus 403))
    (fun err =>
       console_error err ;;
       sendStatus 500).

(** No request writes to the table while this one is handled. *)
Definition store_unchanging (db : Database) : bool :=
  forallb (fun f => match f with ServedAfter _ => false | _ => true end)
          (upcoming db).


(** Every statement sent in a run is the selection by email. *)
Definition only_selects (evs : list Event) : Prop :=
  forall sql values, In (Lookup sql values) evs -> sql = select_by_email.


(** The second call of [query] is served on the table as the first one
    left it: no write in between, no failure. *)
Definition second_lookup_served (db : Database) : Prop :=
  nth 1 (upcoming db) Served = Served.

(** Everything a run does except its traffic with the database. *)
Definition observable (evs : list Event) : list Event :=
  filter (fun e => negb (is_lookup e)) evs.

End Reading.

(** ** The routes and their guards *)

(** The registrations of index.ts 162-333, in their order: the method,
    the path and the guard the handler is wrapped in. The bodies issue
    statements [execute] gives no meaning to and call bcrypt and the
    JSON:API serializer; they stay arbitrary computations. *)
Inductive Method : Type := GET | POST | PATCH | DELETE.

Inductive Path : Type :=
| Users          (* "/users" *)
| UsersId        (* "/users/:id" *)
| UsersIdRole.   (* "/users/:id/role" *)

Inductive Guard : Type :=
| Authenticate
| UserIsSelfOrAdmin
| UserIsAdmin.

Definition routes : list (Method * Path * Guard) :=
  [ (POST, Users, Authenticate);            (* 162 *)
    (GET, UsersId, UserIsSelfOrAdmin);      (* 194 *)
    (PATCH, UsersId, UserIsSelfOrAdmin);    (* 218 *)
    (PATCH, UsersId, UserIsSelfOrAdmin);    (* 245 *)
    (PATCH, UsersIdRole, UserIsAdmin);      (* 272 *)
    (GET, Users, UserIsAdmin);              (* 300 *)
    (DELETE, UsersId, UserIsAdmin) ].       (* 319 *)

Section Routes.

Context {J : Jwt}.

Definition guard_of (g : Guard) : Request -> Async unit -> Async unit :=
  match g with
  | Authenticate => authenticate
  | UserIsSelfOrAdmin => userIsSelfOrAdmin
  | UserIsAdmin => userIsAdmin
  end.

(** A registered route at work on a request, with its body. *)
Definition serve (r : Method * Path * Guard) (req : Request)
           (body : Async unit) : Async unit :=
  route (guard_of (snd r)) req body.

(** What [console.error] has been given, in order. *)
Definition logged (evs : list Event) : list Exn :=
  flat_map (fun e => match e with ConsoleError x => [x] | _ => [] end) evs.

(** A payload [===] can find equal to another: not an object. *)
Definition scalar (p : Payload) : bool :=
  match p with
  | PObject _ => false
  | _ => true
  end.

(** The error [jwt.verify] throws on what it is given, if it throws. *)
Definition verify_error (token : option string) : option Exn :=
  match token with
  | None => Some JsonWebTokenError
  | Some t =>
      match jwt_verify t "oranges" with
      | Throws e => Some e
      | Decoded _ => None
      end
  end.

(** What is logged while [authenticate] fails, check by check: the
    error the failing step threw. *)
Definition cause (req : Request) (db : Database) : list Exn :=
  match diagnose req db with
  | None => []
  | Some MissingCredentials => []
  | Some InvalidToken =>
      match verify_error (headers_access_token req) with
      | Some e => [e]
      | None =>
          match completion (account_lookup req db) with
          | Normal (r :: _) =>
              match verify_error (row_accessToken r) with
              | Some e => [e]
              | None => []
              end
          | _ => []
          end
      end
  | Some UnknownPrincipal => [TypeError]
  | Some TokenMismatch => [Error "Forbidden"]
  | Some PersistenceFault => [QueryError]
  | Some PersistenceStall => [QueryError]
  end.

(** The answer of a handler around [authenticate] alone, as a table. *)
Definition authenticate_verdict (req : Request) (db : Database) : list Event :=
  match diagnose req db with
  | None => ALLOW
  | Some PersistenceStall => []
  | Some _ => InternalFailure
  end.

(** The answer of [userIsAdmin], as a table. *)
Definition userIsAdmin_verdict (req : Request) (db : Database) : list Event :=
  match diagnose req db with
  | None =>
      match completion (role_lookup req db) with
      | Normal result => if is_admin result then ALLOW else Forbidden
      | _ => []
      end
  | Some PersistenceStall => []
  | Some _ => InternalFailure
  end.

(** No two rows carry the same email. *)
Definition emails_unique (t : Table) : Prop :=
  forall u v, In u t -> In v t -> row_email u = row_email v -> u = v.

(** What the persistence layer does to the next call of [query]. *)
Definition first_fate (db : Database) : Fate := hd Served (upcoming db).

End Routes.

(** ** A verifier and a table to run the code on *)

Module Sample.

Definition tokens : list (string * Payload) :=
  [ ("t-admin", PString "12345");
    ("t-user", PString "777");
    ("t-json", PObject [("sub", "1")]);
    ("t-number", PNumber (Finite (Q2Qc 12345))) ].

Fixpoint assoc (k : string) (l : list (string * Payload)) : option Payload :=
  match l with
  | [] => None
  | (k', v) :: l' => if String.eqb k k' then Some v else assoc k l'
  end.

(** ["t-null"] stands for a signed token whose JSON payload is [null]. *)
#[export] Instance jwt : Jwt :=
  { jwt_verify := fun token secret =>
      if String.eqb secret "oranges" then
        match assoc token tokens with
        | Some p => Decoded p
        | None =>
            if String.eqb token "t-null" then Throws TypeError
            else Throws JsonWebTokenError
        end
      else Throws JsonWebTokenError }.

Definition admin : RowDataPacket :=
  {| row_id := 1; row_email := "admin@example.com"; row_role := "ADMIN";
     row_accessToken := Some "t-admin" |}.
Definition john : RowDataPacket :=
  {| row_id := 5; row_email := "johndoe@example.com"; row_role := "USER";
     row_accessToken := Some "t-user" |}.
Definition jane : RowDataPacket :=
  {| row_id := 6; row_email := "jane@example.com"; row_role := "USER";
     row_accessToken := Some "t-json" |}.

Definition table : Table := [admin; john; jane].

Definition quiet : Database := {| users := table; upcoming := [] |}.

Definition request (token email : option string) : Request :=
  {| headers_access_token := token; headers_email := email;
     headers_user_role := None; params_id := Some "9" |}.

Definition as_admin : Request := request (Some "t-admin") (Some "admin@example.com").
Definition as_john : Request := request (Some "t-user") (Some "johndoe@example.com").

(** The account is deleted by another request between the two lookups. *)
Definition deleted_meanwhile : Database :=
  {| users := table; upcoming := [Served; ServedAfter [john; jane]] |}.

(** The pool hands no connection to the first lookup. *)
Definition no_connection : Database :=
  {| users := table; upcoming := [ConnectionError] |}.

(** The statement of the first lookup fails. *)
Definition first_statement_fails : Database :=
  {| users := table; upcoming := [StatementError] |}.

(** The first lookup is served and the statement of the second fails. *)
Definition second_statement_fails : Database :=
  {| users := table; upcoming := [Served; StatementError] |}.

End Sample.

(** More requests and databases to run the code on. *)
Module More.

Import Sample.

Definition as_jane : Request := request (Some "t-json") (Some "jane@example.com").

Definition forged : Request := request (Some "forged") (Some "admin@example.com").

Definition no_email : Request := request (Some "t-admin") (Some "").

(** A signed token whose JSON payload is [null]. *)
Definition null_payload : Request :=
  request (Some "t-null") (Some "admin@example.com").

(** An account whose token carries a number, and its request. *)
Definition numbered : RowDataPacket :=
  {| row_id := 8; row_email := "numbered@example.com"; row_role := "USER";
     row_accessToken := Some "t-number" |}.

Definition with_numbered : Database :=
  {| users := numbered :: table; upcoming := [] |}.

Definition as_numbered : Request :=
  request (Some "t-number") (Some "numbered@example.com").

(** An account whose stored token is NULL. *)
Definition locked : RowDataPacket :=
  {| row_id := 7; row_email := "locked@example.com"; row_role := "USER";
     row_accessToken := None |}.

Definition with_locked : Database :=
  {| users := locked :: table; upcoming := [] |}.

Definition as_locked : Request := request (Some "t-user") (Some "locked@example.com").

(** The first lookup is served and the pool hands no connection to the
    second. *)
Definition second_no_connection : Database :=
  {| users := table; upcoming := [Served; ConnectionError] |}.

(** A body whose first statement fails. *)
Definition failing_body : Async unit := raise QueryError.

End More.

(** ** Anatomy of a run of the authenticator *)

Ltac unfold_guard :=
  cbv beta iota zeta delta
    [bind ret raise catch Monad_Async Exc_Async
     async_bind async_ret async_raise async_catch
     emit never call_unawaited console_error sendStatus
     first_row next_stage verify decode diagnose account_lookup
     authenticate userIsAdmin userIsSelfOrAdmin route
     authenticate_sharing userIsAdmin_single_lookup
     passes_authentication].

Ltac unfold_query :=
  cbv beta iota zeta delta
    [bind ret raise catch Monad_Async Exc_Async
     async_bind async_ret async_raise async_catch
     emit never console_error next_fate read_users write_users query
     events completion database fst snd].

(** Every call of [query] is recorded first; only a failure to get a
    connection is logged, and that is the call that never settles. *)
Lemma query_events (sql : string) (values : list string) (db : Database) :
  events (query sql values db) =
    Lookup sql values ::
    match completion (query sql values db) with
    | Pending => [ConsoleError QueryError]
    | _ => []
    end.
Proof.
  unfold_query.
  destruct (upcoming db) as [|[ |t'| | ] fs]; cbv beta iota;
    try destruct (execute sql values _) as [[written results]|];
    reflexivity.
Qed.

Lemma query_run (sql : string) (values : list string) (db : Database) :
  query sql values db =
    (completion (query sql values db), database (query sql values db),
     Lookup sql values ::
     match completion (query sql values db) with
     | Pending => [ConsoleError QueryError]
     | _ => []
     end).
Proof.
  rewrite <- query_events.
  destruct (query sql values db) as [[c d] l]; reflexivity.
Qed.

(** Case analysis along the checks of [authenticate], in their order. *)
Ltac auth_cases req db :=
  unfold_guard;
  destruct (negb (truthy (headers_access_token req))
            || negb (truthy (headers_email req))) eqn:Hguard;
    [ | destruct (headers_access_token req) as [tok|] eqn:Htok;
        [ destruct (jwt_verify tok "oranges") as [p|verr] eqn:Hverify;
          [ cbv beta iota zeta;
            pose proof (query_events select_by_email
                          (values_of (headers_email req)) db) as Hev;
            destruct (query select_by_email (values_of (headers_email req)) db)
              as [[c db1] ev1];
            cbn [events completion database fst snd] in *;
            subst ev1;
            destruct c as [[|r0 rows]|e|];
            [ | destruct (row_accessToken r0) as [stored|] eqn:Hstored;
                [ destruct (jwt_verify stored "oranges") as [q|verr'] eqn:Hverify';
                  [ destruct (strict_eq p q) eqn:Hcmp | ] | ] | | ] | ] | ] ];
  cbv beta iota zeta.

Section Anatomy.

Context {J : Jwt}.

Lemma authenticate_accept (req : Request) (db : Database) (next : Async unit) :
  diagnose req db = None ->
  authenticate req next db =
    (let r := call_unawaited next (database (account_lookup req db)) in
     (Normal tt, database r,
      Lookup select_by_email (values_of (headers_email req)) :: events r)).
Proof.
  auth_cases req db; try discriminate.
  intros _.
  destruct (next _) as [[[[]|e|] d] l]; reflexivity.
Qed.

(** A failed evaluation does not depend on the next stage, shows
    nothing at the boundary and makes at most one lookup. *)
Lemma authenticate_reject (req : Request) (db : Database) (f : Failure) :
  diagnose req db = Some f ->
  exists c db' evs,
    (forall next, authenticate req next db = (c, db', evs)) /\
    boundary evs = [] /\ unhandled evs = false /\ lookups evs <= 1 /\
    match f with
    | MissingCredentials =>
        c = Thrown (Error "Unauthorized") /\ db' = db /\ evs = []
    | PersistenceStall => c = Pending
    | _ => c = Thrown (Error "Internal Server Error")
    end.
Proof.
  auth_cases req db; intros Hf; inversion Hf; subst f; clear Hf;
    do 3 eexists; (split; [intros next; reflexivity|]);
    cbn; repeat split; lia.
Qed.

Lemma passes_authentication_diagnose (req : Request) (db : Database) :
  passes_authentication req db = true <-> diagnose req db = None.
Proof.
  split.
  - destruct (diagnose req db) as [f|] eqn:D; [|reflexivity].
    destruct (authenticate_reject req db f D) as (c & db' & evs & Hrun & Hb & _).
    unfold passes_authentication. rewrite Hrun. cbn [events snd].
    unfold invoked, boundary in *. intros Hi.
    apply existsb_exists in Hi. destruct Hi as (e & Hin & He).
    assert (In e (filter is_boundary evs)) as Hin'.
    { apply filter_In. split; [exact Hin|]. destruct e; try discriminate; reflexivity. }
    rewrite Hb in Hin'. destruct Hin'.
  - intros D. unfold passes_authentication.
    rewrite (authenticate_accept req db next_stage D). reflexivity.
Qed.

Lemma userIsSelfOrAdmin_answered (req : Request) (next : Async unit) :
  userIsSelfOrAdmin req next =
    answered (authenticate req
      (if strict_eq_str (params_id req) (params_id req)
          || strict_eq_str (headers_user_role req) (Some "ADMIN")
       then next else sendStatus 403)).
Proof. reflexivity. Qed.

Lemma route_answered guard (req : Request) (next : Async unit) :
  route guard req next = answered (guard req next).
Proof. reflexivity. Qed.

(** When authentication fails for a reason other than a stalled lookup
    the enclosing handler answers 500, whatever the next stage is. *)
Lemma answered_reject (req : Request) (db : Database) (f : Failure)
      (next : Async unit) :
  diagnose req db = Some f -> f <> PersistenceStall ->
  let r := answered (authenticate req next) db in
  completion r = Normal tt /\ boundary (events r) = InternalFailure /\
  unhandled (events r) = false /\ lookups (events r) <= 1.
Proof.
  intros D Hf.
  destruct (authenticate_reject req db f D) as (c & db' & evs & Hrun & Hb & Hu & Hl & Hc).
  assert (exists e, c = Thrown e) as [e ->].
  { destruct f; try (eexists; exact Hc); try (eexists; apply Hc). congruence. }
  unfold answered. cbn [catch Exc_Async]. unfold async_catch.
  rewrite Hrun. cbn.
  unfold boundary, unhandled, lookups in *.
  rewrite filter_app, existsb_app, filter_app, length_app, Hb, Hu. cbn.
  repeat split; lia.
Qed.

Lemma answered_accept (req : Request) (db : Database) (next : Async unit) :
  diagnose req db = None ->
  answered (authenticate req next) db = authenticate req next db.
Proof.
  intros D. unfold answered. cbn [catch Exc_Async]. unfold async_catch.
  rewrite (authenticate_accept req db next D). reflexivity.
Qed.

Lemma strict_eq_str_refl (a : option string) : strict_eq_str a a = true.
Proof. destruct a as [s|]; [apply String.eqb_refl | reflexivity]. Qed.

Lemma number_eqb_sound (a b : Number) : number_eqb a b = true -> a = b.
Proof.
  destruct a as [x|s], b as [y|t]; cbn [number_eqb]; try discriminate.
  - intros H. apply Qeq_bool_iff in H. apply Qc_is_canon in H.
    congruence.
  - intros H. apply Bool.eqb_prop in H. congruence.
Qed.

Lemma strict_eq_sound (a b : Payload) : strict_eq a b = true -> a = b.
Proof.
  destruct a, b; cbn [strict_eq]; try discriminate.
  - intros H. apply String.eqb_eq in H. congruence.
  - intros H. apply number_eqb_sound in H. congruence.
  - intros H. apply Bool.eqb_prop in H. congruence.
Qed.

Lemma userIsAdmin_answered (req : Request) (next : Async unit) :
  userIsAdmin req next = answered (authenticate req (role_check req next)).
Proof. reflexivity. Qed.

(** The callback, step by step. *)
Lemma role_check_run (req : Request) (next : Async unit) (db : Database) :
  role_check req next db =
    (let q := account_lookup req db in
     match completion q with
     | Normal result =>
         if is_admin result then
           let r := next (database q) in
           (completion r, database r,
            Lookup select_by_email (values_of (headers_email req)) :: events r)
         else
           (Normal tt, database q,
            [Lookup select_by_email (values_of (headers_email req));
             SendStatus 403])
     | Thrown e =>
         (Thrown e, database q,
          [Lookup select_by_email (values_of (headers_email req))])
     | Pending =>
         (Pending, database q,
          [Lookup select_by_email (values_of (headers_email req));
           ConsoleError QueryError])
     end).
Proof.
  unfold role_check, account_lookup.
  cbv beta iota zeta delta
    [bind ret raise catch Monad_Async Exc_Async async_bind async_ret
     async_raise first_row sendStatus emit].
  rewrite (query_run select_by_email (values_of (headers_email req)) db).
  cbv beta iota zeta delta [completion database events fst snd].
  destruct (query select_by_email (values_of (headers_email req)) db)
    as [[[[|r0 rows]|e|] d] l]; cbn; try reflexivity.
  destruct (String.eqb (row_role r0) "ADMIN"); [|reflexivity].
  destruct (next d) as [[c d'] l']; reflexivity.
Qed.

(** [userIsAdmin] once authentication has succeeded. *)
Lemma userIsAdmin_authenticated (req : Request) (db : Database)
      (next : Async unit) :
  diagnose req db = None ->
  userIsAdmin req next db =
    (let L := Lookup select_by_email (values_of (headers_email req)) in
     let q := role_lookup req db in
     match completion q with
     | Normal result =>
         if is_admin result then
           let r := call_unawaited next (database q) in
           (Normal tt, database r, L :: L :: events r)
         else (Normal tt, database q, [L; L; SendStatus 403])
     | Thrown e => (Normal tt, database q, [L; L; UnhandledRejection e])
     | Pending => (Normal tt, database q, [L; L; ConsoleError QueryError])
     end).
Proof.
  intros D.
  rewrite userIsAdmin_answered, (answered_accept _ _ _ D),
    (authenticate_accept _ _ _ D).
  unfold call_unawaited at 1 2. rewrite role_check_run. fold (role_lookup req db).
  cbv zeta.
  destruct (completion (role_lookup req db)) as [result|e|]; try reflexivity.
  destruct (is_admin result); [|reflexivity].
  unfold call_unawaited.
  destruct (next _) as [[[[]|e|] d] l]; reflexivity.
Qed.

Lemma with_target_diagnose (req : Request) (target userRole : option string)
      (db : Database) :
  diagnose (with_target req target userRole) db = diagnose req db.
Proof. reflexivity. Qed.

(** [userIsSelfOrAdmin] once authentication has succeeded. *)
Lemma userIsSelfOrAdmin_authenticated (req : Request) (db : Database)
      (next : Async unit) :
  diagnose req db = None ->
  userIsSelfOrAdmin req next db = authenticate req next db.
Proof.
  intros D.
  rewrite userIsSelfOrAdmin_answered, strict_eq_str_refl. cbn [orb].
  apply answered_accept, D.
Qed.

Lemma not_in_boundary (e : Event) (evs : list Event) :
  is_boundary e = true -> boundary evs = [] -> ~ In e evs.
Proof.
  intros He Hb Hin.
  assert (In e (boundary evs)) as H by (apply filter_In; split; assumption).
  rewrite Hb in H. destruct H.
Qed.

(** The 403 of [userIsSelfOrAdmin] is dead code. *)
Lemma userIsSelfOrAdmin_never_forbids (req : Request) (db : Database) :
  ~ In (SendStatus 403) (events (userIsSelfOrAdmin req next_stage db)).
Proof.
  destruct (diagnose req db) as [f|] eqn:D.
  - rewrite userIsSelfOrAdmin_answered, strict_eq_str_refl. cbn [orb].
    destruct (authenticate_reject req db f D) as (c & db' & evs & Hrun & Hb & _).
    unfold answered. cbn [catch Exc_Async]. unfold async_catch.
    rewrite Hrun.
    pose proof (not_in_boundary (SendStatus 403) evs eq_refl Hb) as Hn.
    destruct c as [[]|e|]; cbn; try exact Hn.
    intros Hin. apply in_app_or in Hin. destruct Hin as [Hin|Hin]; [exact (Hn Hin)|].
    cbn in Hin. destruct Hin as [Hin|[Hin|[]]]; discriminate.
  - rewrite (userIsSelfOrAdmin_authenticated _ _ _ D), (authenticate_accept _ _ _ D).
    cbn. intros [H|[H|[]]]; discriminate.
Qed.

Lemma boundary_nil_invoked (evs : list Event) :
  boundary evs = [] -> invoked evs = false.
Proof.
  intros Hb. unfold invoked. apply not_true_is_false. intros Hi.
  apply existsb_exists in Hi. destruct Hi as (e & Hin & He).
  apply (not_in_boundary e evs); [destruct e; try discriminate; reflexivity| |]; assumption.
Qed.

(** A failed authentication that is not a stalled lookup is answered
    with 500 by each of the three handlers around [authenticate]. *)
Lemma guards_answer_500 (req : Request) (db : Database) (f : Failure)
      (next : Async unit) :
  diagnose req db = Some f -> f <> PersistenceStall ->
  answers_500 (route authenticate req next db) /\
  answers_500 (userIsAdmin req next db) /\
  answers_500 (userIsSelfOrAdmin req next db).
Proof.
  intros D Hf. unfold answers_500.
  rewrite route_answered, userIsAdmin_answered, userIsSelfOrAdmin_answered.
  repeat split;
    match goal with
    | |- context [answered (authenticate req ?k) db] =>
        destruct (answered_reject req db f k D Hf) as (Hc & Hb & Hu & _)
    end; assumption.
Qed.

(** A lookup that finds no row makes authentication fail, whatever
    came before it. *)
Lemma diagnose_no_row (req : Request) (db : Database) :
  completion (account_lookup req db) = Normal [] ->
  exists f, diagnose req db = Some f /\ authentication_failure f = true.
Proof.
  intros H. unfold diagnose. rewrite H.
  destruct (negb _ || negb _); [eexists; split; reflexivity|].
  destruct (decode _); eexists; split; reflexivity.
Qed.

Lemma authentication_failure_not_stall (f : Failure) :
  authentication_failure f = true -> f <> PersistenceStall.
Proof. destruct f; cbn; congruence. Qed.

(** A role check that fails after a successful authentication. *)
Lemma userIsAdmin_forbids (req : Request) (db : Database)
      (result : list RowDataPacket) :
  passes_authentication req db = true ->
  completion (role_lookup req db) = Normal result ->
  is_admin result = false ->
  let r := userIsAdmin req next_stage db in
  completion r = Normal tt /\ boundary (events r) = Forbidden /\
  invoked (events r) = false /\ unhandled (events r) = false.
Proof.
  intros Hp Hq Hr r. subst r.
  apply passes_authentication_diagnose in Hp.
  rewrite (userIsAdmin_authenticated _ _ _ Hp). cbv zeta.
  rewrite Hq, Hr. repeat split.
Qed.

(** *** Failures of the persistence layer *)

(** A lookup of [authenticate] that never settles leaves every handler
    around it pending, with nothing sent. *)
Lemma stalled_lookup_unanswered (req : Request) (db : Database)
      (next : Async unit) :
  diagnose req db = Some PersistenceStall ->
  let r := answered (authenticate req next) db in
  completion r = Pending /\ boundary (events r) = [].
Proof.
  intros D.
  destruct (authenticate_reject req db PersistenceStall D)
    as (c & db' & evs & Hrun & Hb & _ & _ & ->).
  unfold answered. cbn [catch Exc_Async]. unfold async_catch.
  rewrite Hrun. split; [reflexivity|exact Hb].
Qed.

(** A failure of the lookup of [userIsAdmin] itself is not answered:
    a rejection is left without handler, a stall is only logged. *)
Lemma role_lookup_failure_unanswered (req : Request) (db : Database) :
  passes_authentication req db = true ->
  (forall result, completion (role_lookup req db) <> Normal result) ->
  let r := userIsAdmin req next_stage db in
  boundary (events r) = [] /\
  (forall e, completion (role_lookup req db) = Thrown e ->
             unhandled (events r) = true).
Proof.
  intros Hp Hq r. subst r.
  apply passes_authentication_diagnose in Hp.
  rewrite (userIsAdmin_authenticated _ _ _ Hp). cbv zeta.
  destruct (completion (role_lookup req db)) as [result|e|].
  - destruct (Hq result eq_refl).
  - split; [reflexivity|]. intros e' _. reflexivity.
  - split; [reflexivity|]. intros e' He. discriminate He.
Qed.

(** *** The guards write nothing *)

(** The statement of the guards is a selection: it leaves the table as
    it is and resolves with the rows that carry the email. *)
Lemma execute_select_by_email (values : list string) (t : Table) :
  execute select_by_email values t =
    match values with
    | e :: _ => Some (t, filter (fun r => String.eqb (row_email r) e) t)
    | [] => None
    end.
Proof.
  unfold execute.
  change (parse select_by_email) with (Some (SelectWhere Cemail)).
  destruct values; reflexivity.
Qed.

Lemma query_undisturbed (values : list string) (db : Database) :
  undisturbed db -> database (query select_by_email values db) = db.
Proof.
  unfold undisturbed. destruct db as [t fs]. cbn [upcoming]. intros ->.
  unfold_query. cbn [users upcoming]. rewrite execute_select_by_email.
  destruct values; reflexivity.
Qed.

Lemma query_undisturbed_completion (values : list string) (db : Database) :
  undisturbed db ->
  completion (query select_by_email values db) =
    match values with
    | e :: _ =>
        Normal (filter (fun r => String.eqb (row_email r) e) (users db))
    | [] => Thrown QueryError
    end.
Proof.
  unfold undisturbed. destruct db as [t fs]. cbn [upcoming]. intros ->.
  unfold_query. cbn [users upcoming]. rewrite execute_select_by_email.
  destruct values; reflexivity.
Qed.

(** On an undisturbed database, an email that no row carries is looked
    up in vain. *)
Lemma unknown_email_finds_no_row (req : Request) (db : Database) (e : string) :
  undisturbed db ->
  headers_email req = Some e ->
  (forall u, In u (users db) -> row_email u <> e) ->
  completion (account_lookup req db) = Normal [].
Proof.
  intros Hd He Hno. unfold account_lookup.
  rewrite (query_undisturbed_completion _ _ Hd), He.
  cbn [values_of].
  replace (filter (fun r => String.eqb (row_email r) e) (users db))
    with (@nil RowDataPacket); [reflexivity|].
  symmetry. induction (users db) as [|u t IH]; [reflexivity|].
  cbn [filter].
  destruct (String.eqb_spec (row_email u) e) as [E|E].
  - destruct (Hno u (or_introl eq_refl) E).
  - apply IH. intros v Hv. apply Hno. right. exact Hv.
Qed.











(** *** The guards send one statement only *)


Lemma only_selects_cons (e : Event) (evs : list Event) :
  is_lookup e = false -> only_selects evs -> only_selects (e :: evs).
Proof.
  intros He H sql values [Hin|Hin]; [|exact (H sql values Hin)].
  subst e. discriminate He.
Qed.









(** *** One lookup instead of two *)

Lemma authenticate_sharing_accept (req : Request) (db : Database)
      (next : list RowDataPacket -> Async unit) (result : list RowDataPacket) :
  diagnose req db = None ->
  completion (account_lookup req db) = Normal result ->
  authenticate_sharing req next db =
    (let r := call_unawaited (next result) (database (account_lookup req db)) in
     (Normal tt, database r,
      Lookup select_by_email (values_of (headers_email req)) :: events r)).
Proof.
  unfold account_lookup. intros D Hq. revert D.
  auth_cases req db; try discriminate.
  intros _. injection Hq as <-.
  destruct (next _ _) as [[[[]|e|] d] l]; reflexivity.
Qed.

Lemma authenticate_sharing_reject (req : Request) (db : Database) (f : Failure)
      (next : list RowDataPacket -> Async unit) (next' : Async unit) :
  diagnose req db = Some f ->
  authenticate_sharing req next db = authenticate req next' db.
Proof.
  auth_cases req db; try discriminate; reflexivity.
Qed.

(** The role check on a result already at hand. *)
Lemma role_check_on_result (result : list RowDataPacket) (next : Async unit)
      (db : Database) :
  (isAdmin <- (if Nat.ltb 0 (List.length result) then
                 r0 <- first_row result ;;
                 ret (String.eqb (row_role r0) "ADMIN")
               else ret false) ;;
   if isAdmin then next else sendStatus 403) db =
  if is_admin result then next db else (Normal tt, db, [SendStatus 403]).
Proof.
  cbv beta iota zeta delta
    [bind ret raise Monad_Async Exc_Async async_bind async_ret async_raise
     first_row sendStatus emit].
  destruct result as [|r0 rows]; cbn; [reflexivity|].
  destruct (String.eqb (row_role r0) "ADMIN"); [|reflexivity].
  destruct (next db) as [[c d] l]; reflexivity.
Qed.

(** A second lookup that is served returns what the first returned. *)
Lemma second_lookup_same (values : list string)
      (db : Database) (result : list RowDataPacket) :
  second_lookup_served db ->
  completion (query select_by_email values db) = Normal result ->
  let q := query select_by_email values
             (database (query select_by_email values db)) in
  completion q = Normal result /\
  users (database q) = users (database (query select_by_email values db)).
Proof.
  unfold second_lookup_served.
  destruct db as [t fs]. cbn [upcoming].
  destruct fs as [|f1 [|f2 fs]]; cbn [nth]; intros Hs; try subst f2;
    try destruct f1 as [ |t'| | ]; unfold_query; cbn [users upcoming];
    try discriminate;
    rewrite ?execute_select_by_email; destruct values as [|e vs];
    cbv beta iota; try discriminate;
    cbn [users upcoming]; rewrite ?execute_select_by_email;
    cbv beta iota; cbn [users upcoming];
    intros H; split; (exact H || reflexivity).
Qed.

End Anatomy.

(** ** The claims *)

Section Claims.

Context {J : Jwt}.

(** C1. Every request that passes token authentication is let through
    by [userIsSelfOrAdmin]: whatever the target id of the path and
    whatever the user-role header, the next stage is invoked and 403 is
    never sent. *)
Theorem userIsSelfOrAdmin_accepts_every_authenticated
        (req : Request) (db : Database) :
  passes_authentication req db = true ->
  forall target userRole : option string,
    let r := userIsSelfOrAdmin (with_target req target userRole) next_stage db in
    completion r = Normal tt /\
    boundary (events r) = ALLOW /\
    ~ In (SendStatus 403) (events r).
Proof.
  intros Hp target userRole r. subst r.
  apply passes_authentication_diagnose in Hp.
  rewrite <- (with_target_diagnose req target userRole) in Hp.
  split; [|split]; [| |apply userIsSelfOrAdmin_never_forbids].
  - rewrite (userIsSelfOrAdmin_authenticated _ _ _ Hp),
      (authenticate_accept _ _ _ Hp). reflexivity.
  - rewrite (userIsSelfOrAdmin_authenticated _ _ _ Hp),
      (authenticate_accept _ _ _ Hp). reflexivity.
Qed.

(** C3. When the access-token header or the email header is absent,
    [authenticate] rejects with "Unauthorized": it has invoked no next
    stage and made no lookup, and the database is as it was. *)
Theorem authenticate_missing_header_rejects_before_lookup
        (req : Request) (db : Database) (next : Async unit) :
  headers_access_token req = None \/ headers_email req = None ->
  authenticate req next db = (Thrown (Error "Unauthorized"), db, []) /\
  lookups (events (authenticate req next db)) = 0 /\
  invoked (events (authenticate req next db)) = false.
Proof.
  intros H.
  assert (authenticate req next db = (Thrown (Error "Unauthorized"), db, [])) as E.
  { unfold authenticate.
    destruct H as [H|H]; rewrite H; cbn [truthy negb orb];
      rewrite ?orb_true_r; reflexivity. }
  rewrite E. repeat split.
Qed.

(** C4. When the lookup by the claimed email finds no account,
    [authenticate] rejects: the promise is rejected with an [Error] the
    authenticator itself threw, the next stage is not invoked whatever
    it is, nothing is left unhandled, and each handler around it
    answers 500. *)
Theorem authenticate_unknown_principal_rejects
        (req : Request) (db : Database) :
  completion (account_lookup req db) = Normal [] ->
  (exists msg db' evs,
      (forall next, authenticate req next db = (Thrown (Error msg), db', evs)) /\
      invoked evs = false /\ unhandled evs = false) /\
  (forall next,
      answers_500 (route authenticate req next db) /\
      answers_500 (userIsAdmin req next db) /\
      answers_500 (userIsSelfOrAdmin req next db)).
Proof.
  intros H.
  destruct (diagnose_no_row req db H) as (f & D & Hf).
  pose proof (authentication_failure_not_stall f Hf) as Hs.
  split.
  - destruct (authenticate_reject req db f D) as (c & db' & evs & Hrun & Hb & Hu & _ & Hc).
    assert (exists msg, c = Thrown (Error msg)) as [msg ->].
    { destruct f; try discriminate; eexists; apply Hc. }
    exists msg, db', evs. repeat split; [exact Hrun| |exact Hu].
    apply boundary_nil_invoked, Hb.
  - intros next. apply (guards_answer_500 req db f next D Hs).
Qed.

(** C5. When the presented token and the stored token both verify and
    decode to different values, [authenticate] rejects and the next
    stage is not invoked, whatever it is. *)
Theorem authenticate_rejects_token_mismatch
        (req : Request) (db : Database) (p q : Payload)
        (r0 : RowDataPacket) (rest : list RowDataPacket) :
  decode (headers_access_token req) = Some p ->
  completion (account_lookup req db) = Normal (r0 :: rest) ->
  decode (row_accessToken r0) = Some q ->
  p <> q ->
  exists e db' evs,
    (forall next, authenticate req next db = (Thrown e, db', evs)) /\
    invoked evs = false.
Proof.
  intros Hp Hl Hq Hne.
  assert (strict_eq p q = false) as Hs.
  { apply not_true_is_false. intros E. apply Hne, strict_eq_sound, E. }
  assert (exists f, diagnose req db = Some f /\ authentication_failure f = true)
    as (f & D & Hf).
  { unfold diagnose. rewrite Hp, Hl, Hq, Hs.
    destruct (negb _ || negb _); eexists; split; reflexivity. }
  destruct (authenticate_reject req db f D) as (c & db' & evs & Hrun & Hb & _ & _ & Hc).
  assert (exists e, c = Thrown e) as [e ->].
  { destruct f; try discriminate; eexists; apply Hc. }
  exists e, db', evs. split; [exact Hrun|].
  apply boundary_nil_invoked, Hb.
Qed.

(** C2. For a request that passes token authentication, [userIsAdmin]
    invokes the next stage exactly when the record its own lookup by the
    claimed email returns has role ADMIN; a lookup that returns anything
    else is answered with 403 and no next stage; the user-role header
    and the path play no part; and on an undisturbed database the record
    is the first row of the table with the claimed email. *)
Theorem userIsAdmin_allows_iff_admin_on_file
        (req : Request) (db : Database) :
  passes_authentication req db = true ->
  let r := userIsAdmin req next_stage db in
  (invoked (events r) = true <-> admin_on_file req db = true) /\
  (admin_on_file req db = true -> boundary (events r) = ALLOW) /\
  (forall result,
      completion (role_lookup req db) = Normal result ->
      is_admin result = false ->
      completion r = Normal tt /\ boundary (events r) = Forbidden /\
      unhandled (events r) = false) /\
  (forall target userRole,
      userIsAdmin (with_target req target userRole) next_stage db = r) /\
  (undisturbed db ->
   forall e, headers_email req = Some e ->
     admin_on_file req db =
       is_admin (filter (fun u => String.eqb (row_email u) e) (users db))).
Proof.
  intros Hp r. subst r.
  apply passes_authentication_diagnose in Hp.
  rewrite (userIsAdmin_authenticated _ _ _ Hp).
  unfold admin_on_file. cbv zeta.
  split; [|split; [|split; [|split]]].
  - destruct (completion (role_lookup req db)) as [result|e|];
      [destruct (is_admin result)| |]; split; (reflexivity || discriminate).
  - destruct (completion (role_lookup req db)) as [result|e|]; try discriminate.
    destruct (is_admin result); [reflexivity|discriminate].
  - intros result Hq Hr. rewrite Hq, Hr. repeat split.
  - intros target userRole.
    rewrite <- (with_target_diagnose req target userRole) in Hp.
    rewrite (userIsAdmin_authenticated _ _ _ Hp). reflexivity.
  - intros Hq e He. unfold role_lookup, account_lookup.
    rewrite (query_undisturbed _ _ Hq), (query_undisturbed_completion _ _ Hq).
    rewrite He. reflexivity.
Qed.

(** C10. When authentication has succeeded and the lookup of
    [userIsAdmin] itself returns no row, the guard answers 403: it
    neither throws nor invokes the next stage. *)
Theorem userIsAdmin_no_row_forbidden (req : Request) (db : Database) :
  passes_authentication req db = true ->
  completion (role_lookup req db) = Normal [] ->
  let r := userIsAdmin req next_stage db in
  completion r = Normal tt /\ boundary (events r) = Forbidden /\
  invoked (events r) = false /\ unhandled (events r) = false.
Proof.
  intros Hp Hq r. subst r.
  apply passes_authentication_diagnose in Hp.
  rewrite (userIsAdmin_authenticated _ _ _ Hp). cbv zeta.
  rewrite Hq. repeat split.
Qed.

(** C6. Two requests whose authentication fails, each for one of the
    four reasons of the taxonomy, get the same answer from each handler
    around [authenticate]: 500 and nothing else. A failed role check
    after a successful authentication is answered 403, which differs. *)
Theorem authentication_failures_indistinguishable
        (req1 req2 : Request) (db1 db2 : Database) (f1 f2 : Failure) :
  diagnose req1 db1 = Some f1 -> authentication_failure f1 = true ->
  diagnose req2 db2 = Some f2 -> authentication_failure f2 = true ->
  (forall next1 next2,
      boundary (events (route authenticate req1 next1 db1)) = InternalFailure /\
      boundary (events (route authenticate req2 next2 db2)) = InternalFailure /\
      boundary (events (userIsAdmin req1 next1 db1)) = InternalFailure /\
      boundary (events (userIsAdmin req2 next2 db2)) = InternalFailure /\
      boundary (events (userIsSelfOrAdmin req1 next1 db1)) = InternalFailure /\
      boundary (events (userIsSelfOrAdmin req2 next2 db2)) = InternalFailure) /\
  (forall req3 db3 result,
      passes_authentication req3 db3 = true ->
      completion (role_lookup req3 db3) = Normal result ->
      is_admin result = false ->
      boundary (events (userIsAdmin req3 next_stage db3)) = Forbidden /\
      boundary (events (userIsAdmin req3 next_stage db3)) <>
        boundary (events (userIsAdmin req1 next_stage db1))).
Proof.
  intros D1 H1 D2 H2.
  apply authentication_failure_not_stall in H1, H2.
  split.
  - intros next1 next2.
    destruct (guards_answer_500 req1 db1 f1 next1 D1 H1)
      as ((_ & A1 & _) & (_ & B1 & _) & (_ & C1 & _)).
    destruct (guards_answer_500 req2 db2 f2 next2 D2 H2)
      as ((_ & A2 & _) & (_ & B2 & _) & (_ & C2 & _)).
    repeat split; assumption.
  - intros req3 db3 result Hp Hq Hr.
    destruct (userIsAdmin_forbids req3 db3 result Hp Hq Hr)
      as (_ & Hb & _).
    destruct (guards_answer_500 req1 db1 f1 next_stage D1 H1)
      as (_ & (_ & B1 & _) & _).
    rewrite Hb, B1. split; [reflexivity|discriminate].
Qed.


(** C9, as amended. When the second call of [query] is served on the
    table as the first one left it, [userIsAdmin] and its single-lookup
    variant complete alike, do the same things apart from the lookups
    themselves, and leave the same table. *)
Theorem userIsAdmin_single_lookup_equivalent (req : Request) (db : Database) :
  second_lookup_served db ->
  let two := userIsAdmin req next_stage db in
  let one := userIsAdmin_single_lookup req next_stage db in
  completion one = completion two /\
  observable (events one) = observable (events two) /\
  boundary (events one) = boundary (events two) /\
  users (database one) = users (database two) /\
  lookups (events one) <= 1.
Proof.
  intros Hs two one. subst two one.
  destruct (diagnose req db) as [f|] eqn:D.
  - unfold userIsAdmin_single_lookup.
    fold (answered (authenticate_sharing req
      (fun result =>
         isAdmin <- (if Nat.ltb 0 (List.length result) then
                       r0 <- first_row result ;;
                       ret (String.eqb (row_role r0) "ADMIN")
                     else ret false) ;;
         if isAdmin then next_stage else sendStatus 403))).
    rewrite userIsAdmin_answered.
    unfold answered. cbn [catch Exc_Async]. unfold async_catch.
    rewrite (authenticate_sharing_reject req db f _ (role_check req next_stage) D).
    repeat split.
    destruct (authenticate_reject req db f D) as (c & db' & evs & Hrun & _ & _ & Hl & _).
    rewrite Hrun.
    destruct c as [[]|e|]; cbn; try exact Hl.
    unfold lookups in *. rewrite filter_app, length_app. cbn. lia.
  - rewrite (userIsAdmin_authenticated _ _ _ D). cbv zeta.
    assert (exists result, completion (account_lookup req db) = Normal result)
      as [result Hq].
    { revert D. unfold diagnose.
      destruct (negb _ || negb _); try discriminate.
      destruct (decode (headers_access_token req)); try discriminate.
      destruct (completion (account_lookup req db)) as [result|e|];
        try discriminate.
      intros _. exists result. reflexivity. }
    destruct (second_lookup_same _ db result Hs Hq) as [Hq2 Hu].
    fold (account_lookup req db) in Hq2, Hu.
    fold (account_lookup req (database (account_lookup req db))) in Hq2, Hu.
    fold (role_lookup req db) in Hq2, Hu.
    rewrite Hq2.
    unfold userIsAdmin_single_lookup. cbn [catch Exc_Async]. unfold async_catch.
    rewrite (authenticate_sharing_accept req db _ result D Hq).
    unfold call_unawaited. rewrite role_check_on_result.
    destruct (is_admin result); cbn; repeat split; auto.
Qed.

End Claims.

(** ** More of what the guards do *)

Section Extras.

Context {J : Jwt}.

(** *** Helpers *)

Lemma truthy_inv (h : option string) :
  truthy h = true <-> exists s, h = Some s /\ s <> "".
Proof.
  destruct h as [s|]; cbn.
  - destruct (String.eqb_spec s ""); cbn; split.
    + discriminate.
    + intros (s' & E & Hs). injection E as <-. contradiction.
    + intros _. exists s. split; [reflexivity|assumption].
    + reflexivity.
  - split; [discriminate|]. intros (s & E & _). discriminate.
Qed.

Lemma credentials_present (req : Request) :
  negb (truthy (headers_access_token req))
  || negb (truthy (headers_email req)) = false <->
  truthy (headers_access_token req) = true /\
  truthy (headers_email req) = true.
Proof.
  destruct (truthy (headers_access_token req)),
    (truthy (headers_email req)); cbn; intuition discriminate.
Qed.

Lemma diagnose_missing (req : Request) (db : Database) :
  diagnose req db = Some MissingCredentials <->
  truthy (headers_access_token req) = false \/
  truthy (headers_email req) = false.
Proof.
  unfold diagnose.
  destruct (truthy (headers_access_token req)),
    (truthy (headers_email req)); cbn;
    try (split; [reflexivity|auto]; fail); try tauto.
  split; [|intros [H|H]; discriminate].
  destruct (decode _); [|discriminate].
  destruct (completion _) as [[|r0 rows]|e|]; try discriminate.
  destruct (decode _); [|discriminate].
  destruct (strict_eq _ _); discriminate.
Qed.

Lemma strict_eq_scalar (p q : Payload) :
  strict_eq p q = true <-> p = q /\ scalar p = true.
Proof.
  split.
  - intros H. pose proof (strict_eq_sound p q H) as <-.
    split; [reflexivity|]. destruct p; [reflexivity..|discriminate H].
  - intros [<- Hs]. destruct p as [s|[x|b]|b|c]; cbn.
    + apply String.eqb_refl.
    + apply Qeq_bool_iff. reflexivity.
    + apply Bool.eqb_reflx.
    + apply Bool.eqb_reflx.
    + discriminate Hs.
Qed.

(** Acceptance, spelt out. *)
Lemma passes_authentication_spelt_out (req : Request) (db : Database) :
  passes_authentication req db = true <->
  exists tok e p r0 rest stored,
    headers_access_token req = Some tok /\ tok <> "" /\
    headers_email req = Some e /\ e <> "" /\
    jwt_verify tok "oranges" = Decoded p /\ scalar p = true /\
    completion (account_lookup req db) = Normal (r0 :: rest) /\
    row_accessToken r0 = Some stored /\
    jwt_verify stored "oranges" = Decoded p.
Proof.
  rewrite passes_authentication_diagnose. unfold diagnose. split.
  - destruct (negb _ || negb _) eqn:G; [discriminate|].
    apply credentials_present in G. destruct G as [Gt Ge].
    apply truthy_inv in Gt, Ge.
    destruct Gt as (tok & Et & Ht). destruct Ge as (e & Ee & He).
    rewrite Et. cbn [decode].
    destruct (jwt_verify tok "oranges") as [p|x] eqn:V; [|discriminate].
    destruct (completion (account_lookup req db)) as [[|r0 rest]|x|] eqn:Q;
      try discriminate.
    destruct (row_accessToken r0) as [stored|] eqn:S; cbn [decode];
      [|discriminate].
    destruct (jwt_verify stored "oranges") as [q|x] eqn:V'; [|discriminate].
    destruct (strict_eq p q) eqn:C; [|discriminate].
    intros _. apply strict_eq_scalar in C. destruct C as [<- Hs].
    exists tok, e, p, r0, rest, stored. repeat split; assumption.
  - intros (tok & e & p & r0 & rest & stored
            & Et & Ht & Ee & He & V & Hs & Q & S & V').
    assert (truthy (headers_access_token req) = true) as Gt
      by (apply truthy_inv; eauto).
    assert (truthy (headers_email req) = true) as Ge
      by (apply truthy_inv; eauto).
    rewrite Gt, Ge, Et. cbn [negb orb decode]. rewrite V, Q, S.
    cbn [decode]. rewrite V'.
    rewrite (proj2 (strict_eq_scalar p p) (conj eq_refl Hs)). reflexivity.
Qed.

Lemma passes_authentication_false (req : Request) (db : Database) :
  passes_authentication req db = false <-> exists f, diagnose req db = Some f.
Proof.
  pose proof (passes_authentication_diagnose req db) as H.
  destruct (passes_authentication req db), (diagnose req db) as [f|];
    split; intros H'; try reflexivity; try discriminate; eauto.
  - destruct H as [H _]. specialize (H eq_refl). discriminate.
  - destruct H' as [f E]. discriminate.
  - destruct H as [_ H]. specialize (H eq_refl). discriminate.
Qed.

(** [query] rejects with the error mysql2 hands it, nothing else. *)
Lemma query_rejects_with (sql : string) (values : list string)
      (db : Database) (e : Exn) :
  completion (query sql values db) = Thrown e -> e = QueryError.
Proof.
  unfold_query.
  destruct (upcoming db) as [|[ |t'| | ] fs]; cbv beta iota;
    try destruct (execute sql values _) as [[written results]|];
    cbv beta iota;
    intros H; try discriminate H; injection H as <-; reflexivity.
Qed.

(** *** The checks of [authenticate] *)

(** X1. [authenticate] reaches its call of the next stage exactly when
    both headers are non-empty strings, the presented token verifies to
    a string, a number or a boolean, the lookup resolves with at least
    one row, and the token stored in the first row verifies to the same
    value. *)
Theorem authenticate_accepts_exactly (req : Request) (db : Database) :
  passes_authentication req db = true <->
  exists tok e p r0 rest stored,
    headers_access_token req = Some tok /\ tok <> "" /\
    headers_email req = Some e /\ e <> "" /\
    jwt_verify tok "oranges" = Decoded p /\ scalar p = true /\
    completion (account_lookup req db) = Normal (r0 :: rest) /\
    row_accessToken r0 = Some stored /\
    jwt_verify stored "oranges" = Decoded p.
Proof. exact (passes_authentication_spelt_out req db). Qed.

(** X2. A header that is present but empty counts as missing: the
    request is rejected with "Unauthorized" before any lookup. *)
Theorem authenticate_empty_header_rejects_before_lookup
        (req : Request) (db : Database) (next : Async unit) :
  headers_access_token req = Some "" \/ headers_email req = Some "" ->
  authenticate req next db = (Thrown (Error "Unauthorized"), db, []).
Proof.
  intros H. unfold authenticate.
  destruct H as [H|H]; rewrite H; cbn [truthy String.eqb negb orb];
    rewrite ?orb_true_r; reflexivity.
Qed.

(** X3. A presented token that does not verify is rejected before any
    lookup: the error [jwt.verify] threw is logged, the promise is
    rejected with "Internal Server Error", the database is not asked. *)
Theorem authenticate_invalid_token_rejects_before_lookup
        (req : Request) (db : Database) (next : Async unit) (tok : string)
        (e : Exn) :
  truthy (headers_email req) = true ->
  headers_access_token req = Some tok -> tok <> "" ->
  jwt_verify tok "oranges" = Throws e ->
  authenticate req next db =
    (Thrown (Error "Internal Server Error"), db, [ConsoleError e]).
Proof.
  intros He Et Ht V.
  assert (truthy (headers_access_token req) = true) as Gt
    by (apply truthy_inv; eauto).
  unfold authenticate. rewrite Gt, He, Et. cbn [negb orb].
  unfold_guard. rewrite V. reflexivity.
Qed.

(** X4. An account whose stored token is NULL or does not verify cannot
    be authenticated with any presented token: every handler around
    [authenticate] answers 500. *)
Theorem authenticate_unusable_stored_token_locks_out
        (req : Request) (db : Database)
        (r0 : RowDataPacket) (rest : list RowDataPacket) :
  completion (account_lookup req db) = Normal (r0 :: rest) ->
  decode (row_accessToken r0) = None ->
  passes_authentication req db = false /\
  (forall next,
      answers_500 (route authenticate req next db) /\
      answers_500 (userIsAdmin req next db) /\
      answers_500 (userIsSelfOrAdmin req next db)).
Proof.
  intros Q S.
  assert (exists f, diagnose req db = Some f /\ f <> PersistenceStall)
    as (f & D & Hf).
  { unfold diagnose. rewrite Q, S.
    destruct (negb _ || negb _); [eexists; split; [reflexivity|discriminate]|].
    destruct (decode (headers_access_token req));
      eexists; (split; [reflexivity|discriminate]). }
  split.
  - apply passes_authentication_false. exists f. exact D.
  - intros next. exact (guards_answer_500 req db f next D Hf).
Qed.

(** X5. A presented token whose payload is an object never
    authenticates, whatever is stored: two decoded objects are never
    identical. *)
Theorem authenticate_object_payload_never_passes
        (req : Request) (db : Database) (claims : list (string * string)) :
  decode (headers_access_token req) = Some (PObject claims) ->
  passes_authentication req db = false.
Proof.
  intros V. apply passes_authentication_false. unfold diagnose. rewrite V.
  destruct (negb _ || negb _); [eauto|].
  destruct (completion _) as [[|r0 rows]|e|]; eauto.
  destruct (decode (row_accessToken r0)); cbn [strict_eq]; eauto.
Qed.

(** X6. [authenticate] ends in one of four ways: resolved, pending,
    rejected with "Unauthorized", rejected with "Internal Server Error".
    It is resolved exactly when the next stage was reached, and
    "Unauthorized" exactly when a header is missing or empty; the error
    "Forbidden" it throws on a mismatch never leaves it. *)
Theorem authenticate_completions
        (req : Request) (db : Database) (next : Async unit) :
  let c := completion (authenticate req next db) in
  (c = Normal tt \/ c = Pending \/ c = Thrown (Error "Unauthorized")
   \/ c = Thrown (Error "Internal Server Error")) /\
  (c = Normal tt <-> passes_authentication req db = true) /\
  (c = Thrown (Error "Unauthorized") <->
   truthy (headers_access_token req) = false \/
   truthy (headers_email req) = false).
Proof.
  cbv zeta. rewrite passes_authentication_diagnose, <- (diagnose_missing req db).
  destruct (diagnose req db) as [f|] eqn:D.
  - destruct (authenticate_reject req db f D)
      as (c & db' & evs & Hrun & _ & _ & _ & Hc).
    rewrite Hrun. cbn [completion fst].
    destruct f; try destruct Hc as (Hc & _); subst c;
      (split; [tauto|]); split; split; intros H; try discriminate H;
      try reflexivity.
  - rewrite (authenticate_accept req db next D). cbn.
    split; [tauto|]. split; split; intros H; try discriminate; reflexivity.
Qed.

(** X7. What the boundary hides the log keeps: while [authenticate]
    fails, [console.error] is given the error the failing step threw
    (by the [catch] of [authenticate], or inside [query] when the pool
    hands no connection), and nothing when the credentials are
    missing. *)
Theorem authenticate_logs_cause
        (req : Request) (db : Database) (next : Async unit) :
  passes_authentication req db = false ->
  logged (events (authenticate req next db)) = cause req db.
Proof.
  intros Hp. apply passes_authentication_false in Hp. destruct Hp as [f D].
  revert D. unfold cause.
  pose proof (query_rejects_with select_by_email
                (values_of (headers_email req)) db) as Hq.
  auth_cases req db; unfold verify_error; rewrite ?Htok, ?Hverify;
    cbv beta iota; rewrite ?Hstored, ?Hverify'; cbv beta iota;
    intros D; try discriminate D;
    try rewrite (Hq e eq_refl); reflexivity.
Qed.

(** *** The guards and the routes around them *)

Lemma answered_never_throws (body : Async unit) (db : Database) (e : Exn) :
  completion (answered body db) <> Thrown e.
Proof.
  unfold answered. unfold_guard.
  destruct (body db) as [[[[]|x|] d] l]; discriminate.
Qed.

Lemma answered_twice (body : Async unit) (db : Database) :
  answered (answered body) db = answered body db.
Proof.
  unfold answered. unfold_guard.
  destruct (body db) as [[[[]|x|] d] l]; reflexivity.
Qed.

(** X8. [userIsAdmin] and [userIsSelfOrAdmin] never reject, whatever
    the next stage does: the [catch] of a route around them never runs,
    and the route is the guard. *)
Theorem guards_never_reject
        (req : Request) (next : Async unit) (db : Database) :
  (forall e, completion (userIsAdmin req next db) <> Thrown e) /\
  (forall e, completion (userIsSelfOrAdmin req next db) <> Thrown e) /\
  route userIsAdmin req next db = userIsAdmin req next db /\
  route userIsSelfOrAdmin req next db = userIsSelfOrAdmin req next db.
Proof.
  rewrite !route_answered, userIsAdmin_answered, userIsSelfOrAdmin_answered.
  repeat split; try apply answered_never_throws; apply answered_twice.
Qed.

(** X9. The answer of each guard, as a table over the checks: at most
    one of handler, 403 and 500, and none at all when a lookup stalls
    or the second lookup of [userIsAdmin] fails. *)
Theorem guards_decision_table (req : Request) (db : Database) :
  boundary (events (userIsAdmin req next_stage db))
    = userIsAdmin_verdict req db /\
  boundary (events (userIsSelfOrAdmin req next_stage db))
    = authenticate_verdict req db /\
  boundary (events (route authenticate req next_stage db))
    = authenticate_verdict req db.
Proof.
  unfold userIsAdmin_verdict, authenticate_verdict.
  destruct (diagnose req db) as [f|] eqn:D.
  - assert (f = PersistenceStall \/ f <> PersistenceStall) as [->|Hf]
      by (destruct f; (left; reflexivity) || (right; discriminate)).
    + rewrite route_answered, userIsAdmin_answered, userIsSelfOrAdmin_answered.
      repeat split; apply (stalled_lookup_unanswered req db _ D).
    + destruct (guards_answer_500 req db f next_stage D Hf)
        as ((_ & A & _) & (_ & B & _) & (_ & C & _)).
      rewrite A, B, C.
      destruct f; try (repeat split; reflexivity). congruence.
  - rewrite route_answered, (answered_accept _ _ _ D),
      (userIsSelfOrAdmin_authenticated _ _ _ D),
      (authenticate_accept _ _ _ D), (userIsAdmin_authenticated _ _ _ D).
    cbv zeta.
    destruct (completion (role_lookup req db)) as [result|e|];
      try destruct (is_admin result); repeat split.
Qed.

(** X10. [userIsSelfOrAdmin] is a route around [authenticate] and
    nothing more, on every request and for every next stage. *)
Theorem userIsSelfOrAdmin_is_plain_authentication
        (req : Request) (next : Async unit) (db : Database) :
  userIsSelfOrAdmin req next db = route authenticate req next db.
Proof.
  rewrite userIsSelfOrAdmin_answered, strict_eq_str_refl, route_answered.
  reflexivity.
Qed.

Lemma unauthenticated_ignores_body (req : Request) (db : Database)
      (f : Failure) (k k' : Async unit) :
  diagnose req db = Some f ->
  answered (authenticate req k) db = answered (authenticate req k') db.
Proof.
  intros D.
  destruct (authenticate_reject req db f D) as (c & db' & evs & Hrun & _).
  unfold answered. cbn [catch Exc_Async]. unfold async_catch.
  rewrite (Hrun k), (Hrun k'). reflexivity.
Qed.

Lemma guards_ignore_body_unauthenticated (req : Request) (db : Database)
      (body body' : Async unit) :
  passes_authentication req db = false ->
  route authenticate req body db = route authenticate req body' db /\
  userIsSelfOrAdmin req body db = userIsSelfOrAdmin req body' db /\
  userIsAdmin req body db = userIsAdmin req body' db.
Proof.
  intros Hp. apply passes_authentication_false in Hp. destruct Hp as [f D].
  rewrite !route_answered, !userIsAdmin_answered, !userIsSelfOrAdmin_answered.
  repeat split; apply (unauthenticated_ignores_body req db f _ _ D).
Qed.

Lemma userIsAdmin_ignores_body_without_admin (req : Request) (db : Database)
      (body body' : Async unit) :
  admin_on_file req db = false ->
  userIsAdmin req body db = userIsAdmin req body' db.
Proof.
  intros Ha.
  destruct (diagnose req db) as [f|] eqn:D.
  - rewrite !userIsAdmin_answered.
    apply (unauthenticated_ignores_body req db f _ _ D).
  - rewrite !(userIsAdmin_authenticated _ _ _ D). cbv zeta.
    unfold admin_on_file in Ha.
    destruct (completion (role_lookup req db)) as [result|e|]; try reflexivity.
    rewrite Ha. reflexivity.
Qed.

(** X11. The body a guard is given has no part in a run in which
    authentication fails, nor, for [userIsAdmin], in one in which the
    record read by the role check does not say ADMIN: the run is the
    same for any two bodies. *)
Theorem guards_do_not_start_body
        (req : Request) (db : Database) (body body' : Async unit) :
  (passes_authentication req db = false ->
   route authenticate req body db = route authenticate req body' db /\
   userIsSelfOrAdmin req body db = userIsSelfOrAdmin req body' db /\
   userIsAdmin req body db = userIsAdmin req body' db) /\
  (admin_on_file req db = false ->
   userIsAdmin req body db = userIsAdmin req body' db).
Proof.
  split.
  - apply guards_ignore_body_unauthenticated.
  - apply userIsAdmin_ignores_body_without_admin.
Qed.

(** X12. A body that rejects is not answered: [authenticate] does not
    await it, so the [catch] of the guard and of the route send no 500
    and the rejection is left without handler. *)
Theorem body_rejection_is_unhandled
        (req : Request) (db : Database) (body : Async unit)
        (e : Exn) (d : Database) (l : list Event) :
  passes_authentication req db = true ->
  body (database (account_lookup req db)) = (Thrown e, d, l) ->
  route authenticate req body db =
    (Normal tt, d,
     Lookup select_by_email (values_of (headers_email req))
     :: l ++ [UnhandledRejection e]) /\
  userIsSelfOrAdmin req body db = route authenticate req body db.
Proof.
  intros Hp Hb. apply passes_authentication_diagnose in Hp.
  split.
  - rewrite route_answered, (answered_accept _ _ _ Hp),
      (authenticate_accept _ _ _ Hp).
    unfold call_unawaited. rewrite Hb. reflexivity.
  - rewrite userIsSelfOrAdmin_answered, strict_eq_str_refl, route_answered.
    reflexivity.
Qed.



(** *** Failures of the persistence layer, in general *)

Lemma query_no_connection (sql : string) (values : list string) (db : Database) :
  first_fate db = ConnectionError ->
  completion (query sql values db) = Pending.
Proof.
  unfold first_fate. unfold_query.
  destruct (upcoming db) as [|f fs]; cbn [hd]; intros H;
    [discriminate H|]. subst f. reflexivity.
Qed.

Lemma query_statement_error (sql : string) (values : list string)
      (db : Database) :
  first_fate db = StatementError ->
  completion (query sql values db) = Thrown QueryError.
Proof.
  unfold first_fate. unfold_query.
  destruct (upcoming db) as [|f fs]; cbn [hd]; intros H;
    [discriminate H|]. subst f. reflexivity.
Qed.

Lemma diagnose_stall (req : Request) (db : Database) :
  reaches_lookup req = true ->
  completion (account_lookup req db) = Pending ->
  diagnose req db = Some PersistenceStall.
Proof.
  unfold reaches_lookup, diagnose. intros Hr Hq.
  destruct (negb _ || negb _); [discriminate Hr|].
  destruct (decode _); [|discriminate Hr]. rewrite Hq. reflexivity.
Qed.

Lemma diagnose_fault (req : Request) (db : Database) (e : Exn) :
  reaches_lookup req = true ->
  completion (account_lookup req db) = Thrown e ->
  diagnose req db = Some PersistenceFault.
Proof.
  unfold reaches_lookup, diagnose. intros Hr Hq.
  destruct (negb _ || negb _); [discriminate Hr|].
  destruct (decode _); [|discriminate Hr]. rewrite Hq. reflexivity.
Qed.

Lemma authenticate_stalls (req : Request) (db : Database) (next : Async unit) :
  diagnose req db = Some PersistenceStall ->
  authenticate req next db =
    (Pending, database (account_lookup req db),
     [Lookup select_by_email (values_of (headers_email req));
      ConsoleError QueryError]).
Proof.
  auth_cases req db; intros D; inversion D; reflexivity.
Qed.

Lemma answered_pending (body : Async unit) (db d : Database) (l : list Event) :
  body db = (Pending, d, l) -> answered body db = (Pending, d, l).
Proof.
  intros H. unfold answered. cbn [catch Exc_Async]. unfold async_catch.
  rewrite H. reflexivity.
Qed.

(** X14. When the pool hands no connection to the lookup of
    [authenticate], the request is never answered: [authenticate], the
    guards and the route stay pending, with the lookup and the log
    entry of [query] as their only effects. *)
Theorem pool_failure_leaves_request_unanswered
        (req : Request) (db : Database) (next : Async unit) :
  reaches_lookup req = true ->
  first_fate db = ConnectionError ->
  let stalled : Completion unit * Database * list Event :=
    (Pending, database (account_lookup req db),
     [Lookup select_by_email (values_of (headers_email req));
      ConsoleError QueryError]) in
  authenticate req next db = stalled /\
  route authenticate req next db = stalled /\
  userIsAdmin req next db = stalled /\
  userIsSelfOrAdmin req next db = stalled.
Proof.
  intros Hr Hf stalled. subst stalled.
  pose proof (diagnose_stall req db Hr
                (query_no_connection _ _ db Hf)) as D.
  rewrite route_answered, userIsAdmin_answered, userIsSelfOrAdmin_answered.
  repeat split; try apply answered_pending; apply authenticate_stalls, D.
Qed.

(** X15. When the statement of the lookup of [authenticate] fails, the
    request is answered 500 by each handler around [authenticate], and
    no next stage runs. *)
Theorem statement_failure_is_answered_500
        (req : Request) (db : Database) (next : Async unit) :
  reaches_lookup req = true ->
  first_fate db = StatementError ->
  answers_500 (route authenticate req next db) /\
  answers_500 (userIsAdmin req next db) /\
  answers_500 (userIsSelfOrAdmin req next db).
Proof.
  intros Hr Hf.
  pose proof (diagnose_fault req db QueryError Hr
                (query_statement_error _ _ db Hf)) as D.
  apply (guards_answer_500 req db PersistenceFault next D). discriminate.
Qed.

(** X16. When the lookup of [userIsAdmin] itself fails after a
    successful authentication, the guard resolves without an answer:
    a failed statement leaves an unhandled rejection, a refused
    connection only the log entry of [query]. *)
Theorem userIsAdmin_second_lookup_failure_unanswered
        (req : Request) (db : Database) (next : Async unit) :
  passes_authentication req db = true ->
  let L := Lookup select_by_email (values_of (headers_email req)) in
  (first_fate (database (account_lookup req db)) = StatementError ->
   userIsAdmin req next db =
     (Normal tt, database (role_lookup req db),
      [L; L; UnhandledRejection QueryError])) /\
  (first_fate (database (account_lookup req db)) = ConnectionError ->
   userIsAdmin req next db =
     (Normal tt, database (role_lookup req db),
      [L; L; ConsoleError QueryError])).
Proof.
  intros Hp L. subst L. apply passes_authentication_diagnose in Hp.
  rewrite (userIsAdmin_authenticated _ _ _ Hp). cbv zeta.
  split; intros Hf.
  - unfold role_lookup at 1, account_lookup at 1.
    rewrite (query_statement_error _ _ _ Hf). reflexivity.
  - unfold role_lookup at 1, account_lookup at 1.
    rewrite (query_no_connection _ _ _ Hf). reflexivity.
Qed.

(** *** The routes *)

Lemma route_guard_ignores_body (g : Request -> Async unit -> Async unit)
      (req : Request) (db : Database) (body body' : Async unit) :
  g req body db = g req body' db ->
  route g req body db = route g req body' db.
Proof.
  intros H. rewrite !route_answered.
  unfold answered. cbn [catch Exc_Async]. unfold async_catch.
  rewrite H. reflexivity.
Qed.

Lemma routes_allow (req : Request) (db : Database) :
  diagnose req db = None ->
  boundary (events (route authenticate req next_stage db)) = ALLOW /\
  boundary (events (route userIsSelfOrAdmin req next_stage db)) = ALLOW.
Proof.
  intros D.
  rewrite (route_answered userIsSelfOrAdmin), userIsSelfOrAdmin_answered,
    strict_eq_str_refl, answered_twice. cbn [orb].
  rewrite route_answered, (answered_accept _ _ _ D),
    (authenticate_accept _ _ _ D).
  split; reflexivity.
Qed.

(** X17. The access the routes give. No registered route starts its
    body for a request that fails authentication; the three routes
    PATCH /users/:id/role, GET /users and DELETE /users/:id start it
    only when the record read by the role check says ADMIN; and
    POST /users, GET /users/:id and PATCH /users/:id start it for every
    authenticated caller. *)
Theorem routes_access (m : Method) (p : Path) (g : Guard)
        (req : Request) (db : Database) (body body' : Async unit) :
  In (m, p, g) routes ->
  (passes_authentication req db = false ->
   serve (m, p, g) req body db = serve (m, p, g) req body' db) /\
  ((m, p) = (PATCH, UsersIdRole) \/ (m, p) = (GET, Users)
   \/ (m, p) = (DELETE, UsersId) ->
   admin_on_file req db = false ->
   serve (m, p, g) req body db = serve (m, p, g) req body' db) /\
  ((m, p) = (POST, Users) \/ (m, p) = (GET, UsersId)
   \/ (m, p) = (PATCH, UsersId) ->
   passes_authentication req db = true ->
   boundary (events (serve (m, p, g) req next_stage db)) = ALLOW).
Proof.
  intros Hin. unfold serve. cbn [snd].
  split; [|split].
  - intros Hp.
    destruct (guards_ignore_body_unauthenticated req db body body' Hp)
      as (A & B & C).
    destruct g; cbn [guard_of].
    + exact A.
    + apply route_guard_ignores_body, B.
    + apply route_guard_ignores_body, C.
  - intros Hmp Ha.
    cbn [routes In] in Hin.
    destruct Hin as [E|[E|[E|[E|[E|[E|[E|[]]]]]]]];
      injection E as <- <- <-; cbn [guard_of];
      destruct Hmp as [H|[H|H]]; try discriminate H;
      apply (route_guard_ignores_body userIsAdmin),
        userIsAdmin_ignores_body_without_admin, Ha.
  - intros Hmp Hp. apply passes_authentication_diagnose in Hp.
    destruct (routes_allow req db Hp) as [A B].
    cbn [routes In] in Hin.
    destruct Hin as [E|[E|[E|[E|[E|[E|[E|[]]]]]]]];
      injection E as <- <- <-; cbn [guard_of];
      destruct Hmp as [H|[H|H]]; try discriminate H;
      assumption.
Qed.

(** *** On the table *)

(** Where an email is carried by one row at most, the selection by
    that email has the row for its head, whatever the order of the
    table. *)
Lemma select_head_unique (t : Table) (e : string) (r0 : RowDataPacket) :
  emails_unique t ->
  (exists rest, filter (fun u => String.eqb (row_email u) e) t = r0 :: rest)
  <-> In r0 t /\ row_email r0 = e.
Proof.
  intros Hu. split.
  - intros [rest H].
    assert (In r0 (filter (fun u => String.eqb (row_email u) e) t)) as Hin
      by (rewrite H; left; reflexivity).
    apply filter_In in Hin. destruct Hin as [Hin He].
    apply String.eqb_eq in He. split; assumption.
  - intros [Hin He].
    assert (In r0 (filter (fun u => String.eqb (row_email u) e) t)) as Hf.
    { apply filter_In. split; [exact Hin|]. apply String.eqb_eq, He. }
    destruct (filter (fun u => String.eqb (row_email u) e) t)
      as [|h rest] eqn:F; [destruct Hf|].
    assert (In h (filter (fun u => String.eqb (row_email u) e) t)) as Hh
      by (rewrite F; left; reflexivity).
    apply filter_In in Hh. destruct Hh as [Hh Hhe].
    apply String.eqb_eq in Hhe.
    assert (h = r0) as -> by (apply Hu; congruence).
    exists rest. reflexivity.
Qed.

(** X18. On an undisturbed database in which an email is carried by one
    row at most, [authenticate] accepts exactly when the row that
    carries the claimed email stores a token that verifies to the same
    string, number or boolean as the presented one. *)
Theorem authenticate_accepts_the_row_on_file
        (req : Request) (db : Database) :
  undisturbed db ->
  emails_unique (users db) ->
  (passes_authentication req db = true <->
   exists tok e p r0 stored,
     headers_access_token req = Some tok /\ tok <> "" /\
     headers_email req = Some e /\ e <> "" /\
     jwt_verify tok "oranges" = Decoded p /\ scalar p = true /\
     In r0 (users db) /\ row_email r0 = e /\
     row_accessToken r0 = Some stored /\
     jwt_verify stored "oranges" = Decoded p).
Proof.
  intros Hd Hu. rewrite passes_authentication_spelt_out.
  assert (forall e, headers_email req = Some e ->
            completion (account_lookup req db) =
              Normal (filter (fun u => String.eqb (row_email u) e) (users db)))
    as Hq.
  { intros e He. unfold account_lookup.
    rewrite (query_undisturbed_completion _ _ Hd), He. reflexivity. }
  split.
  - intros (tok & e & p & r0 & rest & stored
            & Et & Ht & Ee & He & V & Hs & Q & S & V').
    rewrite (Hq e Ee) in Q. injection Q as Q.
    destruct (proj1 (select_head_unique (users db) e r0 Hu)
                (ex_intro _ rest Q)) as [Hin Hre].
    exists tok, e, p, r0, stored.
    repeat split; assumption.
  - intros (tok & e & p & r0 & stored
            & Et & Ht & Ee & He & V & Hs & Hin & Hre & S & V').
    destruct (proj2 (select_head_unique (users db) e r0 Hu)
                (conj Hin Hre)) as [rest F].
    exists tok, e, p, r0, rest, stored.
    repeat split; try assumption.
    rewrite (Hq e Ee), F. reflexivity.
Qed.

End Extras.

Import Sample.

(** ** Runs on the sample table *)

(** An administrator with the token on file is let through by
    [userIsAdmin], after two lookups. *)
Example admin_is_allowed :
  userIsAdmin as_admin next_stage quiet =
    (Normal tt, quiet,
     [Lookup select_by_email ["admin@example.com"];
      Lookup select_by_email ["admin@example.com"];
      NextStage]).
Proof. reflexivity. Qed.

(** A plain user asking for the account of somebody else is let
    through by [userIsSelfOrAdmin] and refused by [userIsAdmin]. *)
Example user_reads_another_account :
  boundary (events (userIsSelfOrAdmin as_john next_stage quiet)) = ALLOW /\
  boundary (events (userIsAdmin as_john next_stage quiet)) = Forbidden.
Proof. split; reflexivity. Qed.

(** A token whose payload is a JSON object never equals the one on
    file, even when both are the same token. *)
Example object_payload_never_matches :
  diagnose (request (Some "t-json") (Some "jane@example.com")) quiet
  = Some TokenMismatch.
Proof. reflexivity. Qed.

(** Each reason of the taxonomy occurs. *)
Example taxonomy_occurs :
  diagnose (request None (Some "admin@example.com")) quiet
    = Some MissingCredentials /\
  diagnose (request (Some "forged") (Some "admin@example.com")) quiet
    = Some InvalidToken /\
  diagnose (request (Some "t-user") (Some "unknown@x.com")) quiet
    = Some UnknownPrincipal /\
  diagnose (request (Some "t-user") (Some "admin@example.com")) quiet
    = Some TokenMismatch.
Proof. repeat split. Qed.

(** A deletion and an update do write; the selection of the guards
    does not. *)
Example statements_that_write :
  users (database (query "DELETE FROM users WHERE email = ?"
                         ["admin@example.com"] quiet)) = [john; jane] /\
  map row_role
      (users (database (query "UPDATE users SET role = ? WHERE id = ?"
                              ["ADMIN"; "5"] quiet)))
  = ["ADMIN"; "ADMIN"; "USER"] /\
  users (database (query "DELETE FROM users WHERE id = ?" ["6"] quiet))
  = [admin; john] /\
  users (database (query select_by_email ["admin@example.com"] quiet))
  = table.
Proof. repeat split. Qed.

(** A token whose payload is a JSON number authenticates against the
    same number on file. *)
Example number_payload_authenticates :
  passes_authentication More.as_numbered More.with_numbered = true.
Proof. reflexivity. Qed.

(** ** The claims on the sample table *)

Lemma userIsSelfOrAdmin_accepts_every_authenticated_witness :
  passes_authentication as_john quiet = true /\
  boundary (events (userIsSelfOrAdmin
                      (with_target as_john (Some "1") (Some "USER"))
                      next_stage quiet)) = ALLOW.
Proof.
  split; [reflexivity|].
  apply (@userIsSelfOrAdmin_accepts_every_authenticated jwt as_john quiet eq_refl
           (Some "1") (Some "USER")).
Defined.

Lemma authenticate_missing_header_rejects_before_lookup_witness :
  lookups (events (authenticate (request None (Some "admin@example.com"))
                                next_stage quiet)) = 0.
Proof.
  apply (@authenticate_missing_header_rejects_before_lookup jwt
           (request None (Some "admin@example.com")) quiet next_stage
           (or_introl eq_refl)).
Defined.

Lemma authenticate_unknown_principal_rejects_witness :
  completion (account_lookup (request (Some "t-user") (Some "unknown@x.com"))
                             quiet) = Normal [] /\
  answers_500 (route authenticate
                     (request (Some "t-user") (Some "unknown@x.com"))
                     next_stage quiet).
Proof.
  split; [reflexivity|].
  apply (@authenticate_unknown_principal_rejects jwt
           (request (Some "t-user") (Some "unknown@x.com")) quiet eq_refl).
Defined.

Lemma authenticate_rejects_token_mismatch_witness :
  exists e db' evs,
    (forall next,
        authenticate (request (Some "t-user") (Some "admin@example.com"))
                     next quiet = (Thrown e, db', evs)) /\
    invoked evs = false.
Proof.
  apply (@authenticate_rejects_token_mismatch jwt
           (request (Some "t-user") (Some "admin@example.com")) quiet
           (PString "777") (PString "12345") admin []);
    [reflexivity | reflexivity | reflexivity | discriminate].
Defined.

Lemma userIsAdmin_allows_iff_admin_on_file_witness :
  passes_authentication as_admin quiet = true /\
  boundary (events (userIsAdmin as_admin next_stage quiet)) = ALLOW.
Proof.
  split; [reflexivity|].
  apply (proj1 (proj2 (@userIsAdmin_allows_iff_admin_on_file jwt as_admin quiet eq_refl))).
  reflexivity.
Defined.

Lemma userIsAdmin_no_row_forbidden_witness :
  passes_authentication as_admin deleted_meanwhile = true /\
  completion (role_lookup as_admin deleted_meanwhile) = Normal [] /\
  boundary (events (userIsAdmin as_admin next_stage deleted_meanwhile)) = Forbidden.
Proof.
  split; [reflexivity|]. split; [reflexivity|].
  apply (@userIsAdmin_no_row_forbidden jwt as_admin deleted_meanwhile eq_refl eq_refl).
Defined.

Lemma authentication_failures_indistinguishable_witness :
  diagnose (request None (Some "admin@example.com")) quiet
    = Some MissingCredentials /\
  diagnose (request (Some "t-user") (Some "admin@example.com")) quiet
    = Some TokenMismatch /\
  boundary (events (userIsAdmin (request None (Some "admin@example.com"))
                                next_stage quiet)) = InternalFailure /\
  boundary (events (userIsAdmin
                      (request (Some "t-user") (Some "admin@example.com"))
                      next_stage quiet)) = InternalFailure /\
  boundary (events (userIsAdmin as_john next_stage quiet)) = Forbidden.
Proof.
  split; [reflexivity|]. split; [reflexivity|].
  pose proof (@authentication_failures_indistinguishable jwt
                (request None (Some "admin@example.com"))
                (request (Some "t-user") (Some "admin@example.com"))
                quiet quiet MissingCredentials TokenMismatch
                eq_refl eq_refl eq_refl eq_refl) as [H H'].
  destruct (H next_stage next_stage) as (_ & _ & H1 & H2 & _).
  destruct (H' as_john quiet [john] eq_refl eq_refl eq_refl) as [H3 _].
  repeat split; assumption.
Defined.



(** C9 as claimed fails: the table never changes, the statement of the
    second lookup fails, and the two variants answer differently. *)
Lemma userIsAdmin_single_lookup_differs :
  store_unchanging second_statement_fails = true /\
  boundary (events (userIsAdmin as_admin next_stage second_statement_fails))
  <> boundary (events (userIsAdmin_single_lookup as_admin next_stage
                                                 second_statement_fails)).
Proof. split; [reflexivity|]. cbn. discriminate. Qed.

Lemma userIsAdmin_single_lookup_equivalent_witness :
  second_lookup_served quiet /\
  boundary (events (userIsAdmin_single_lookup as_admin next_stage quiet))
  = boundary (events (userIsAdmin as_admin next_stage quiet)).
Proof.
  split; [reflexivity|].
  apply (@userIsAdmin_single_lookup_equivalent jwt as_admin quiet eq_refl).
Defined.

(** C7 at its failing inputs. When the pool hands no connection the
    request is never answered; when the statement of the second lookup
    fails the rejection has no handler and the request is never
    answered either; only a failing statement of the first lookup is
    answered with 500. *)
Theorem persistence_fault_unanswered :
  (let r := route userIsAdmin as_admin next_stage no_connection in
   completion r = Pending /\ boundary (events r) = []) /\
  (let r := route userIsAdmin as_admin next_stage second_statement_fails in
   boundary (events r) = [] /\ unhandled (events r) = true) /\
  answers_500 (route userIsAdmin as_admin next_stage first_statement_fails).
Proof. cbv zeta. unfold answers_500. repeat split. Qed.

(** ** More runs on the sample table *)

Import More.

Lemma authenticate_empty_header_rejects_before_lookup_witness :
  authenticate no_email next_stage quiet
  = (Thrown (Error "Unauthorized"), quiet, []).
Proof.
  apply (@authenticate_empty_header_rejects_before_lookup jwt
           no_email quiet next_stage (or_intror eq_refl)).
Defined.

Lemma authenticate_invalid_token_rejects_before_lookup_witness :
  authenticate forged next_stage quiet
  = (Thrown (Error "Internal Server Error"), quiet,
     [ConsoleError JsonWebTokenError]) /\
  authenticate null_payload next_stage quiet
  = (Thrown (Error "Internal Server Error"), quiet,
     [ConsoleError TypeError]).
Proof.
  split.
  - apply (@authenticate_invalid_token_rejects_before_lookup jwt
             forged quiet next_stage "forged" JsonWebTokenError
             eq_refl eq_refl);
      [discriminate | reflexivity].
  - apply (@authenticate_invalid_token_rejects_before_lookup jwt
             null_payload quiet next_stage "t-null" TypeError
             eq_refl eq_refl);
      [discriminate | reflexivity].
Defined.

Lemma authenticate_unusable_stored_token_locks_out_witness :
  completion (account_lookup as_locked with_locked) = Normal [locked] /\
  passes_authentication as_locked with_locked = false.
Proof.
  split; [reflexivity|].
  apply (@authenticate_unusable_stored_token_locks_out jwt
           as_locked with_locked locked [] eq_refl eq_refl).
Defined.

Lemma authenticate_object_payload_never_passes_witness :
  row_accessToken jane = headers_access_token as_jane /\
  passes_authentication as_jane quiet = false.
Proof.
  split; [reflexivity|].
  apply (@authenticate_object_payload_never_passes jwt
           as_jane quiet [("sub", "1")] eq_refl).
Defined.

Lemma authenticate_logs_cause_witness :
  logged (events (authenticate
                    (request (Some "t-user") (Some "admin@example.com"))
                    next_stage quiet))
  = [Error "Forbidden"] /\
  logged (events (authenticate null_payload next_stage quiet))
  = [TypeError].
Proof.
  split.
  - apply (@authenticate_logs_cause jwt
             (request (Some "t-user") (Some "admin@example.com")) quiet
             next_stage eq_refl).
  - apply (@authenticate_logs_cause jwt null_payload quiet next_stage
             eq_refl).
Defined.

Lemma guards_do_not_start_body_witness :
  passes_authentication forged quiet = false /\
  userIsAdmin forged failing_body quiet = userIsAdmin forged next_stage quiet /\
  admin_on_file as_john quiet = false /\
  userIsAdmin as_john failing_body quiet = userIsAdmin as_john next_stage quiet.
Proof.
  split; [reflexivity|]. split.
  - apply (proj1 (@guards_do_not_start_body jwt forged quiet
                    failing_body next_stage) eq_refl).
  - split; [reflexivity|].
    apply (proj2 (@guards_do_not_start_body jwt as_john quiet
                    failing_body next_stage) eq_refl).
Defined.

Lemma body_rejection_is_unhandled_witness :
  route authenticate as_admin failing_body quiet =
    (Normal tt, quiet,
     [Lookup select_by_email ["admin@example.com"];
      UnhandledRejection QueryError]).
Proof.
  apply (@body_rejection_is_unhandled jwt as_admin quiet failing_body
           QueryError quiet [] eq_refl eq_refl).
Defined.

Lemma pool_failure_leaves_request_unanswered_witness :
  reaches_lookup as_admin = true /\
  first_fate no_connection = ConnectionError /\
  completion (userIsAdmin as_admin next_stage no_connection) = Pending.
Proof.
  split; [reflexivity|]. split; [reflexivity|].
  destruct (@pool_failure_leaves_request_unanswered jwt as_admin
              no_connection next_stage eq_refl eq_refl) as (_ & _ & H & _).
  rewrite H. reflexivity.
Defined.

Lemma statement_failure_is_answered_500_witness :
  reaches_lookup as_admin = true /\
  first_fate first_statement_fails = StatementError /\
  answers_500 (userIsAdmin as_admin next_stage first_statement_fails).
Proof.
  split; [reflexivity|]. split; [reflexivity|].
  apply (@statement_failure_is_answered_500 jwt as_admin
           first_statement_fails next_stage eq_refl eq_refl).
Defined.

Lemma userIsAdmin_second_lookup_failure_unanswered_witness :
  passes_authentication as_admin second_statement_fails = true /\
  boundary (events (userIsAdmin as_admin next_stage second_statement_fails))
  = [] /\
  passes_authentication as_admin second_no_connection = true /\
  boundary (events (userIsAdmin as_admin next_stage second_no_connection))
  = [].
Proof.
  split; [reflexivity|]. split.
  - rewrite (proj1 (@userIsAdmin_second_lookup_failure_unanswered jwt
                      as_admin second_statement_fails next_stage eq_refl)
               eq_refl).
    reflexivity.
  - split; [reflexivity|].
    rewrite (proj2 (@userIsAdmin_second_lookup_failure_unanswered jwt
                      as_admin second_no_connection next_stage eq_refl)
               eq_refl).
    reflexivity.
Defined.

Lemma routes_access_witness :
  In (DELETE, UsersId, UserIsAdmin) routes /\
  admin_on_file as_john quiet = false /\
  serve (DELETE, UsersId, UserIsAdmin) as_john failing_body quiet
  = serve (DELETE, UsersId, UserIsAdmin) as_john next_stage quiet /\
  In (PATCH, UsersId, UserIsSelfOrAdmin) routes /\
  boundary (events (serve (PATCH, UsersId, UserIsSelfOrAdmin) as_john
                          next_stage quiet)) = ALLOW.
Proof.
  assert (In (DELETE, UsersId, UserIsAdmin) routes) as H1
    by (cbn; tauto).
  assert (In (PATCH, UsersId, UserIsSelfOrAdmin) routes) as H2
    by (cbn; tauto).
  split; [exact H1|]. split; [reflexivity|]. split.
  - apply (proj1 (proj2 (@routes_access jwt DELETE UsersId UserIsAdmin
                           as_john quiet failing_body next_stage H1))
             (or_intror (or_intror eq_refl)) eq_refl).
  - split; [exact H2|].
    apply (proj2 (proj2 (@routes_access jwt PATCH UsersId UserIsSelfOrAdmin
                           as_john quiet next_stage next_stage H2))
             (or_intror (or_intror eq_refl)) eq_refl).
Defined.

Lemma sample_emails_unique : emails_unique (users quiet).
Proof.
  intros u v Hu Hv E. cbn in Hu, Hv.
  destruct Hu as [<-|[<-|[<-|[]]]], Hv as [<-|[<-|[<-|[]]]];
    try reflexivity; discriminate E.
Qed.

Lemma authenticate_accepts_the_row_on_file_witness :
  undisturbed quiet /\
  emails_unique (users quiet) /\
  passes_authentication as_admin quiet = true.
Proof.
  split; [reflexivity|]. split; [exact sample_emails_unique|].
  apply (proj2 (@authenticate_accepts_the_row_on_file jwt as_admin quiet
                  eq_refl sample_emails_unique)).
  exists "t-admin", "admin@example.com", (PString "12345"), admin, "t-admin".
  repeat split; try discriminate. cbn. tauto.
Defined.
